(** * Wind-turbine digital twin: SCADA simulator and twin engine

    A shallow embedding of [config.py], [scada_simulator.py], [dt_engine.py]
    and of the stepping loop of [dashboard.py], followed by the properties
    of the specification that concern them.

    Numbers.  Python floats are modelled as exact rationals in lowest terms
    ([Qc]); a decimal literal of the source denotes its decimal value.
    Rounding, overflow, infinities and NaN are outside the model, so every
    statement below is a statement about the program computed in exact
    arithmetic.  The one exception is the generator-temperature update,
    which is also given in binary64 ([binary64.relax]), where its iteration
    behaves differently.

    Effects.  [random.uniform] reads a process-wide generator and [/] may
    raise [ZeroDivisionError]; both are explicit here: a computation of
    [scada_simulator] is a function from the generator state to either an
    exception or a value together with the next generator state.

    Dictionaries.  The snapshot, physics and health dictionaries have fixed
    keys and are records; the Parameter Set is a record as well, so that
    [config.X] reads as [X cfg]. *)

From Stdlib Require Import QArith Qcanon Lqa Bool List String Lia PeanoNat ZArith Znat.
From Corelib Require PrimFloat.
Import ListNotations.

Local Open Scope Qc_scope.

(* ================================================================== *)
(** * Part I: the program *)

(** ** Floats as exact rationals *)

(** A literal of the source. *)
Definition lit (q : Q) : Qc := Q2Qc q.

(** The comparison operators [<], [<=], [>] of Python, as booleans. *)
Definition fltb (x y : Qc) : bool :=
  match x ?= y with Lt => true | _ => false end.

Definition fleb (x y : Qc) : bool :=
  match x ?= y with Gt => false | _ => true end.

Definition fgtb (x y : Qc) : bool := fltb y x.

Infix "<?" := fltb (at level 70, no associativity) : Qc_scope.
Infix "<=?" := fleb (at level 70, no associativity) : Qc_scope.
Infix ">?" := fgtb (at level 70, no associativity) : Qc_scope.

(** The builtins [max(a, b)] and [min(a, b)]: the first argument is kept
    unless the second is strictly larger (resp. smaller). *)
Definition pymax (a b : Qc) : Qc := if b >? a then b else a.
Definition pymin (a b : Qc) : Qc := if b <? a then b else a.

(** [math.pi], as Python prints it. *)
Definition math_pi : Qc := lit 3.141592653589793.

(** ** Exceptions and the two monads *)

Inductive exn : Type := ZeroDivisionError.

Inductive result (A : Type) : Type :=
| Ok (a : A)
| Raise (e : exn).

Arguments Ok {A} a.
Arguments Raise {A} e.

Class Monad (m : Type -> Type) : Type := {
  ret : forall {A}, A -> m A;
  bind : forall {A B}, m A -> (A -> m B) -> m B
}.

Declare Scope monad_scope.
Notation "x <- e1 ;; e2" := (bind e1 (fun x => e2))
  (at level 61, e1 at next level, right associativity) : monad_scope.
Local Open Scope monad_scope.

(** Pure code that may raise. *)
#[export] Instance result_monad : Monad result := {
  ret := fun A a => Ok a;
  bind := fun A B r k => match r with Ok a => k a | Raise e => Raise e end
}.

(** True division [x / y] of two floats. *)
Definition fdiv (x y : Qc) : result Qc :=
  if Qc_eq_bool y 0 then Raise ZeroDivisionError else Ok (x / y).

(** The generator behind the module [random]: the values [random.random()]
    will return, and how many of them have been consumed. *)
Record Rng : Type := { tape : nat -> Qc; cursor : nat }.

Definition advance (g : Rng) : Rng :=
  {| tape := tape g; cursor := S (cursor g) |}.

(** Code that draws random numbers and may raise. *)
Definition M (A : Type) : Type := Rng -> result (A * Rng).

#[export] Instance M_monad : Monad M := {
  ret := fun A a g => Ok (a, g);
  bind := fun A B m k g =>
    match m g with
    | Ok (a, g') => k a g'
    | Raise e => Raise e
    end
}.

Definition lift {A : Type} (r : result A) : M A :=
  fun g => match r with Ok a => Ok (a, g) | Raise e => Raise e end.

(** [random.random()]: the next value of the tape. *)
Definition random : M Qc := fun g => Ok (tape g (cursor g), advance g).

(** [random.uniform(a, b)], which the library computes as
    [a + (b - a) * random()]. *)
Definition uniform (a b : Qc) : M Qc :=
  u <- random ;; ret (a + (b - a) * u).

(* ================================================================== *)
(** ** config.py: the Parameter Set *)

(** The module-level constants of [config.py].  The simulator and the twin
    engine read them as attributes of the imported module, so they are
    fields of a record here and the functions below take the record as
    their first argument.  [ROTOR_AREA] is computed from [ROTOR_RADIUS]
    when the module is loaded. *)
Record Config : Type := {
  AIR_DENSITY : Qc;
  ROTOR_RADIUS : Qc;
  RATED_POWER : Qc;
  EFFICIENCY : Qc;
  CUT_IN_WIND : Qc;
  RATED_WIND : Qc;
  CUT_OUT_WIND : Qc;
  MAX_RPM : Qc;
  MIN_RPM : Qc;
  MIN_PITCH : Qc;
  MAX_PITCH : Qc;
  CP_MAX : Qc;
  CP_NOMINAL : Qc;
  GEN_TEMP_WARN : Qc;
  GEN_TEMP_CRIT : Qc;
  GB_TEMP_WARN : Qc;
  GB_TEMP_CRIT : Qc;
  VIB_WARN : Qc;
  VIB_CRIT : Qc
}.

Definition ROTOR_AREA (cfg : Config) : Qc :=
  lit 3.1416 * ROTOR_RADIUS cfg ^ 2.

(** The values written in [config.py]. *)
Definition config : Config := {|
  AIR_DENSITY := lit 1.225;
  ROTOR_RADIUS := lit 40.0;
  RATED_POWER := lit 2000000;
  EFFICIENCY := lit 0.92;
  CUT_IN_WIND := lit 3.0;
  RATED_WIND := lit 12.0;
  CUT_OUT_WIND := lit 25.0;
  MAX_RPM := lit 18.0;
  MIN_RPM := lit 3.0;
  MIN_PITCH := lit 0.0;
  MAX_PITCH := lit 25.0;
  CP_MAX := lit 0.59;
  CP_NOMINAL := lit 0.45;
  GEN_TEMP_WARN := lit 85.0;
  GEN_TEMP_CRIT := lit 95.0;
  GB_TEMP_WARN := lit 90.0;
  GB_TEMP_CRIT := lit 100.0;
  VIB_WARN := lit 6.0;
  VIB_CRIT := lit 10.0
|}.

(* ================================================================== *)
(** ** The records exchanged between the modules *)

(** One SCADA snapshot: the dictionary with these seven keys. *)
Record Snapshot : Type := {
  wind_speed : Qc;
  rpm : Qc;
  pitch : Qc;
  power : Qc;
  gen_temp : Qc;
  gb_temp : Qc;
  vibration : Qc
}.

(** The dictionary returned by [compute_physics]. *)
Record Physics : Type := {
  omega : Qc;
  p_wind : Qc;
  tsr : Qc;
  cp : Qc;
  torque : Qc
}.

(** The three status strings. *)
Inductive Status : Type := OK | WARN | CRITICAL.

(** The dictionary built by [evaluate_health], with the assignments
    [health[key] = value] it performs. *)
Module Health.

Record t : Type := {
  generator_temp : Status;
  gearbox_temp : Status;
  vibration : Status;
  performance : Status
}.

Definition set_generator_temp (v : Status) (h : t) : t :=
  {| generator_temp := v; gearbox_temp := gearbox_temp h;
     vibration := vibration h; performance := performance h |}.

Definition set_gearbox_temp (v : Status) (h : t) : t :=
  {| generator_temp := generator_temp h; gearbox_temp := v;
     vibration := vibration h; performance := performance h |}.

Definition set_vibration (v : Status) (h : t) : t :=
  {| generator_temp := generator_temp h; gearbox_temp := gearbox_temp h;
     vibration := v; performance := performance h |}.

Definition set_performance (v : Status) (h : t) : t :=
  {| generator_temp := generator_temp h; gearbox_temp := gearbox_temp h;
     vibration := vibration h; performance := v |}.

End Health.

(* ================================================================== *)
(** ** scada_simulator.py *)

Module scada_simulator.

Definition initialize_state : Snapshot := {|
  wind_speed := lit 8.0;
  rpm := lit 8.0;
  pitch := lit 2.0;
  power := lit 0.0;
  gen_temp := lit 40.0;
  gb_temp := lit 45.0;
  vibration := lit 2.5
|}.

Section WithConfig.

Variable cfg : Config.

Definition step (state : Snapshot) : M Snapshot :=
  (* 1. wind speed *)
  wind_noise <- uniform (lit (-0.2)) (lit 0.2) ;;
  wind_drift <- uniform (lit (-0.02)) (lit 0.02) ;;
  let wind := pymax (lit 0.0) (wind_speed state + wind_noise + wind_drift) in
  (* 2. rotor speed *)
  let rpm_ctl :=
    if wind <? RATED_WIND cfg then pymin (MAX_RPM cfg) (lit 1.5 * wind)
    else MAX_RPM cfg in
  let rpm' := pymax (MIN_RPM cfg) rpm_ctl in
  (* 3. pitch angle *)
  pitch' <-
    (if wind <=? RATED_WIND cfg then
       u <- uniform (lit 0.0) (lit 0.3) ;;
       ret (MIN_PITCH cfg + u)
     else
       u <- uniform (lit 0.1) (lit 0.3) ;;
       ret (pymin (MAX_PITCH cfg) (pitch state + u))) ;;
  (* 4. power output *)
  let power' :=
    if wind <? CUT_IN_WIND cfg then lit 0.0
    else
      let p_wind := lit 0.5 * AIR_DENSITY cfg * ROTOR_AREA cfg * wind ^ 3 in
      pymin (RATED_POWER cfg) (EFFICIENCY cfg * lit 0.4 * p_wind) in
  (* 5. generator temperature *)
  gen_frac <- lift (fdiv power' (RATED_POWER cfg)) ;;
  let gen_temp' :=
    gen_temp state + lit 0.01 * (gen_frac * lit 80 - gen_temp state) in
  (* 6. gearbox temperature *)
  power_frac <- lift (fdiv power' (RATED_POWER cfg)) ;;
  rpm_frac <- lift (fdiv rpm' (MAX_RPM cfg)) ;;
  let gb_load := power_frac + rpm_frac in
  let gb_temp' :=
    gb_temp state + lit 0.008 * (gb_load * lit 90 - gb_temp state) in
  (* 7. vibration *)
  vib_noise <- uniform (lit (-0.02)) (lit 0.02) ;;
  let vib := vibration state + vib_noise in
  ret {| wind_speed := wind;
         rpm := rpm';
         pitch := pitch';
         power := power';
         gen_temp := gen_temp';
         gb_temp := gb_temp';
         vibration := pymax (lit 0.5) vib |}.

End WithConfig.

End scada_simulator.

(* ================================================================== *)
(** ** dt_engine.py *)

Module dt_engine.

Section WithConfig.

Variable cfg : Config.

Definition compute_physics (scada : Snapshot) : result Physics :=
  let wind := wind_speed scada in
  let rpm := rpm scada in
  let power := power scada in
  (* angular speed *)
  omega <- fdiv (lit 2.0 * math_pi * rpm) (lit 60.0) ;;
  (* available wind power *)
  let p_wind :=
    if wind >? lit 0.0 then
      lit 0.5 * AIR_DENSITY cfg * ROTOR_AREA cfg * wind ^ 3
    else lit 0.0 in
  (* tip speed ratio *)
  tsr <-
    (if wind >? lit 0.1 then fdiv (omega * ROTOR_RADIUS cfg) wind
     else ret (lit 0.0)) ;;
  (* power coefficient *)
  cp <-
    (if p_wind >? lit 1.0 then
       cp <- fdiv power p_wind ;;
       ret (pymin cp (CP_MAX cfg))
     else ret (lit 0.0)) ;;
  (* mechanical torque *)
  torque <-
    (if omega >? lit 0.1 then fdiv power omega
     else ret (lit 0.0)) ;;
  ret {| omega := omega;
         p_wind := p_wind;
         tsr := tsr;
         cp := cp;
         torque := torque |}.

Definition evaluate_health (scada : Snapshot) (dt : Physics) : Health.t :=
  let health :=
    {| Health.generator_temp := OK;
       Health.gearbox_temp := OK;
       Health.vibration := OK;
       Health.performance := OK |} in
  (* generator temperature *)
  let health :=
    if gen_temp scada >? GEN_TEMP_CRIT cfg then
      Health.set_generator_temp CRITICAL health
    else if gen_temp scada >? GEN_TEMP_WARN cfg then
      Health.set_generator_temp WARN health
    else health in
  (* gearbox temperature *)
  let health :=
    if gb_temp scada >? GB_TEMP_CRIT cfg then
      Health.set_gearbox_temp CRITICAL health
    else if gb_temp scada >? GB_TEMP_WARN cfg then
      Health.set_gearbox_temp WARN health
    else health in
  (* vibration *)
  let health :=
    if vibration scada >? VIB_CRIT cfg then
      Health.set_vibration CRITICAL health
    else if vibration scada >? VIB_WARN cfg then
      Health.set_vibration WARN health
    else health in
  (* performance degradation *)
  let health :=
    if (cp dt <? lit 0.25) && (wind_speed scada >? CUT_IN_WIND cfg) then
      Health.set_performance WARN health
    else health in
  health.

End WithConfig.

End dt_engine.

Import scada_simulator dt_engine.

(* ================================================================== *)
(** ** dashboard.py: the driver *)

(** The dashboard keeps one current snapshot, [initialize_state()] at
    first, and replaces it by [sim.step] of itself on every refresh.
    [session cfg n] is the current snapshot after [n] refreshes. *)
Module dashboard.

Section WithConfig.

Variable cfg : Config.

Fixpoint run (n : nat) (state : Snapshot) : M Snapshot :=
  match n with
  | O => ret state
  | S n' => state' <- step cfg state ;; run n' state'
  end.

Definition session (n : nat) : M Snapshot := run n initialize_state.

End WithConfig.

End dashboard.

(** ** dashboard.py: the page script *)

(** A clock reading returned by [datetime.now()]. *)
Definition datetime : Type := Z.

(** The values a history row holds. *)
Inductive value : Type :=
| VFloat (x : Qc)
| VTime (t : datetime).

(** A dictionary with string keys: its items in insertion order.
    [dict_set] is the assignment [d[k] = v], which keeps the place of a key
    already present; [dict_merge a b] is the display [{**a, **b}]. *)
Definition dict : Type := list (string * value).

Fixpoint dict_get (k : string) (d : dict) : option value :=
  match d with
  | [] => None
  | (k', v) :: d' => if String.eqb k k' then Some v else dict_get k d'
  end.

Fixpoint dict_set (k : string) (v : value) (d : dict) : dict :=
  match d with
  | [] => [(k, v)]
  | (k', v') :: d' =>
      if String.eqb k k' then (k, v) :: d' else (k', v') :: dict_set k v d'
  end.

Definition dict_merge (a b : dict) : dict :=
  fold_left (fun acc kv => dict_set (fst kv) (snd kv) acc) b a.

(** The snapshot and physics records as the dictionaries they stand for. *)
Definition snapshot_dict (s : Snapshot) : dict :=
  [ ("wind_speed"%string, VFloat (wind_speed s));
    ("rpm"%string, VFloat (rpm s));
    ("pitch"%string, VFloat (pitch s));
    ("power"%string, VFloat (power s));
    ("gen_temp"%string, VFloat (gen_temp s));
    ("gb_temp"%string, VFloat (gb_temp s));
    ("vibration"%string, VFloat (vibration s)) ].

Definition physics_dict (ph : Physics) : dict :=
  [ ("omega"%string, VFloat (omega ph));
    ("p_wind"%string, VFloat (p_wind ph));
    ("tsr"%string, VFloat (tsr ph));
    ("cp"%string, VFloat (cp ph));
    ("torque"%string, VFloat (torque ph)) ].

(** The status strings stored in the health dictionary. *)
Definition status_str (st : Status) : string :=
  match st with
  | OK => "OK"%string
  | WARN => "WARN"%string
  | CRITICAL => "CRITICAL"%string
  end.

Module dashboard_page.

(** The colour [health_card] gives to a status:
    [color_map.get(status, "#6b7280")]. *)
Definition color_map : list (string * string) :=
  [ ("OK"%string, "#16a34a"%string);
    ("WARN"%string, "#f59e0b"%string);
    ("CRITICAL"%string, "#dc2626"%string) ].

Fixpoint get (m : list (string * string)) (k default : string) : string :=
  match m with
  | [] => default
  | (k', v) :: m' => if String.eqb k k' then v else get m' k default
  end.

Definition health_card_color (status : string) : string :=
  get color_map status "#6b7280"%string.

(** The sidebar controls read at the start of a run. *)
Record Widgets : Type := {
  run_live : bool;
  step_once : bool;
  refresh_sec : Qc
}.

(** [st.session_state]: each of the keys ["state"] and ["history"] is
    absent or holds a value. *)
Record SessionState : Type := {
  state : option Snapshot;
  history : option (list dict)
}.

(** What one run of the script puts on the page: the snapshot, physics and
    health it displays, the colours of the four health cards, and whether
    the two trend charts are drawn ([len(df_hist) > 2]) instead of the
    waiting message. *)
Record Page : Type := {
  current_scada : Snapshot;
  current_physics : Physics;
  current_health : Health.t;
  card_colors : string * string * string * string;
  charts : bool
}.

(** The row appended to the history:
    [{"time": datetime.now(), **current_scada, **current_physics}]. *)
Definition history_row (now : datetime) (scada : Snapshot) (ph : Physics) : dict :=
  dict_merge
    (dict_merge [("time"%string, VTime now)] (snapshot_dict scada))
    (physics_dict ph).

Section WithConfig.

Variable cfg : Config.

(** One run of the script, from the session-state initialisation to the
    live-loop step.  A run that raises is not followed further. *)
Definition script (w : Widgets) (now : datetime) (ss : SessionState)
  : M (SessionState * Page) :=
  (* session state init *)
  let state0 :=
    match state ss with Some s => s | None => initialize_state end in
  let history0 :=
    match history ss with Some h => h | None => [] end in
  (* step simulator (if requested) *)
  state1 <- (if step_once w then step cfg state0 else ret state0) ;;
  (* compute current DT outputs *)
  let scada := state1 in
  ph <- lift (compute_physics cfg scada) ;;
  let health := evaluate_health cfg scada ph in
  (* store history for plots *)
  let history1 := history0 ++ [history_row now scada ph] in
  let page :=
    {| current_scada := scada;
       current_physics := ph;
       current_health := health;
       card_colors :=
         (health_card_color (status_str (Health.generator_temp health)),
          health_card_color (status_str (Health.gearbox_temp health)),
          health_card_color (status_str (Health.vibration health)),
          health_card_color (status_str (Health.performance health)));
       charts := Nat.ltb 2 (List.length history1) |} in
  (* live loop *)
  state2 <- (if run_live w then step cfg state1 else ret state1) ;;
  ret ({| state := Some state2; history := Some history1 |}, page).

(** Successive runs of the script, one per element of [inputs]: the
    controls and the clock reading of that run. *)
Fixpoint reruns (inputs : list (Widgets * datetime)) (ss : SessionState)
  : M (SessionState * list Page) :=
  match inputs with
  | [] => ret (ss, [])
  | (w, now) :: rest =>
      r <- script w now ss ;;
      r' <- reruns rest (fst r) ;;
      ret (fst r', snd r :: snd r')
  end.

End WithConfig.

End dashboard_page.

Import scada_simulator dt_engine dashboard dashboard_page.

(* ================================================================== *)
(** * Part II: the vocabulary of the properties *)

(** A generator is admissible when every value it yields lies in the unit
    interval, so that [uniform a b] lies between [a] and [b]. *)
Definition admissible (g : Rng) : Prop :=
  forall n, 0 <= tape g n /\ tape g n <= 1.

Definition advance_by (k : nat) (g : Rng) : Rng := Nat.iter k advance g.

(** The value of the call of [random.uniform] with bounds [a] and [b] that
    comes after [k] earlier calls on [g]. *)
Definition draw (g : Rng) (k : nat) (a b : Qc) : Qc :=
  let g' := advance_by k g in a + (b - a) * tape g' (cursor g').

(** The declared ranges of the bounded fields of a snapshot. *)
Definition in_range (cfg : Config) (s : Snapshot) : Prop :=
  (MIN_RPM cfg <= rpm s /\ rpm s <= MAX_RPM cfg) /\
  (MIN_PITCH cfg <= pitch s /\ pitch s <= MAX_PITCH cfg) /\
  (0 <= power s /\ power s <= RATED_POWER cfg) /\
  0 <= wind_speed s /\
  lit 0.5 <= vibration s.

(** A snapshot with its [rpm] and [power] entries replaced. *)
Definition with_rpm_power (r p : Qc) (s : Snapshot) : Snapshot :=
  {| wind_speed := wind_speed s;
     rpm := r;
     pitch := pitch s;
     power := p;
     gen_temp := gen_temp s;
     gb_temp := gb_temp s;
     vibration := vibration s |}.

(** The generator-temperature update of [step] as a function of the new
    power [p] and the previous temperature [T], and the equilibrium it
    relaxes to. *)
Definition relax (p T : Qc) : Qc :=
  T + lit 0.01 * (p / RATED_POWER config * lit 80 - T).

Definition equilibrium (p : Qc) : Qc := p / RATED_POWER config * lit 80.

(** The same update and equilibrium as the code computes them, in binary64:
    [state["gen_temp"] + 0.01 * (power / config.RATED_POWER * 80 -
    state["gen_temp"])] with [RATED_POWER = 2_000_000], every operation
    rounded to nearest ([0.01] is read, as Python reads it, as the nearest
    binary64 value).  [half_rated], [warm] and [cool] are the floats
    1000000.0, 50.0 and 30.0. *)
Module binary64.

Import PrimFloat.

#[warnings="-inexact-float"]
Definition relax (p T : float) : float :=
  (T + 0.01 * (p / 2000000 * 80 - T))%float.

Definition equilibrium (p : float) : float := (p / 2000000 * 80)%float.




End binary64.

(** Each channel of [evaluate_health] as a function of the one reading it
    tests. *)
Definition classify (warn crit x : Qc) : Status :=
  if x >? crit then CRITICAL else if x >? warn then WARN else OK.

(** Internal consistency of a Parameter Set, as the specification lists
    it.  No function of the program computes this. *)
Definition consistent (cfg : Config) : Prop :=
  CUT_IN_WIND cfg < RATED_WIND cfg /\
  MIN_RPM cfg < MAX_RPM cfg /\
  MIN_PITCH cfg <= MAX_PITCH cfg /\
  CP_NOMINAL cfg <= CP_MAX cfg /\
  GEN_TEMP_WARN cfg < GEN_TEMP_CRIT cfg /\
  GB_TEMP_WARN cfg < GB_TEMP_CRIT cfg /\
  VIB_WARN cfg < VIB_CRIT cfg.

(** ** Sample inputs *)

(** The generator whose every [random.random()] is 0.5. *)
Definition rng_half : Rng := {| tape := fun _ => lit 0.5; cursor := 0 |}.

(** The snapshot of scenario A, its other entries as [initialize_state]
    sets them. *)
Definition calm_snapshot : Snapshot :=
  {| wind_speed := 0; rpm := 0; pitch := lit 2.0; power := 0;
     gen_temp := lit 40.0; gb_temp := lit 45.0; vibration := lit 2.5 |}.

(** A snapshot with negative power, its other entries as [initialize_state]
    sets them. *)
Definition negative_power_snapshot : Snapshot :=
  {| wind_speed := lit 8.0; rpm := lit 8.0; pitch := lit 2.0;
     power := lit (-1000.0);
     gen_temp := lit 40.0; gb_temp := lit 45.0; vibration := lit 2.5 |}.

(** The snapshot of scenario C, its other entries as [initialize_state]
    sets them, and a physics record with [cp] 0. *)
Definition idle_snapshot : Snapshot :=
  {| wind_speed := lit 2; rpm := lit 8.0; pitch := lit 2.0; power := lit 0;
     gen_temp := lit 40.0; gb_temp := lit 45.0; vibration := lit 2.5 |}.

Definition zero_physics : Physics :=
  {| omega := 0; p_wind := 0; tsr := 0; cp := 0; torque := 0 |}.

(** The snapshot of scenario B, its other entries as [initialize_state]
    sets them, and a physics record with [cp] 0.45. *)
Definition hot_generator_snapshot : Snapshot :=
  {| wind_speed := lit 8; rpm := lit 8.0; pitch := lit 2.0; power := lit 0.0;
     gen_temp := lit 96; gb_temp := lit 70; vibration := lit 2 |}.

Definition nominal_physics : Physics :=
  {| omega := 0; p_wind := 0; tsr := 0; cp := lit 0.45; torque := 0 |}.

(** [config.py] with [MIN_RPM = 20.0], above [MAX_RPM = 18.0]. *)
Definition inverted_rpm_config : Config := {|
  AIR_DENSITY := AIR_DENSITY config;
  ROTOR_RADIUS := ROTOR_RADIUS config;
  RATED_POWER := RATED_POWER config;
  EFFICIENCY := EFFICIENCY config;
  CUT_IN_WIND := CUT_IN_WIND config;
  RATED_WIND := RATED_WIND config;
  CUT_OUT_WIND := CUT_OUT_WIND config;
  MAX_RPM := MAX_RPM config;
  MIN_RPM := lit 20.0;
  MIN_PITCH := MIN_PITCH config;
  MAX_PITCH := MAX_PITCH config;
  CP_MAX := CP_MAX config;
  CP_NOMINAL := CP_NOMINAL config;
  GEN_TEMP_WARN := GEN_TEMP_WARN config;
  GEN_TEMP_CRIT := GEN_TEMP_CRIT config;
  GB_TEMP_WARN := GB_TEMP_WARN config;
  GB_TEMP_CRIT := GB_TEMP_CRIT config;
  VIB_WARN := VIB_WARN config;
  VIB_CRIT := VIB_CRIT config
|}.

(** ** The vocabulary of the further properties *)

(** The order of severity [OK < WARN < CRITICAL]. *)
Definition severity (st : Status) : nat :=
  match st with OK => 0 | WARN => 1 | CRITICAL => 2 end.

(** The generator whose every [random.random()] is 1. *)
Definition rng_one : Rng := {| tape := fun _ => 1; cursor := 0 |}.

(** The session state of a freshly opened page. *)
Definition fresh_session : dashboard_page.SessionState :=
  {| dashboard_page.state := None; dashboard_page.history := None |}.

(** A step count as a float. *)
Definition of_nat (n : nat) : Qc := lit (inject_Z (Z.of_nat n)).

(** The number of simulator steps one run of the page script performs: one
    for the button, one for the live loop. *)
Definition steps_of (w : dashboard_page.Widgets) : nat :=
  ((if dashboard_page.step_once w then 1 else 0) +
   (if dashboard_page.run_live w then 1 else 0))%nat.

(** The number of simulator steps performed by the first [k] runs. *)
Fixpoint steps_before (inputs : list (dashboard_page.Widgets * datetime))
    (k : nat) : nat :=
  match k, inputs with
  | S k', (w, _) :: rest => (steps_of w + steps_before rest k')%nat
  | _, _ => 0%nat
  end.

(** The keys of a history row, in order. *)
Definition history_columns : list string :=
  [ "time"; "wind_speed"; "rpm"; "pitch"; "power"; "gen_temp"; "gb_temp";
    "vibration"; "omega"; "p_wind"; "tsr"; "cp"; "torque" ]%string.

(** Controls for sample runs: live only, live with the button pressed, and
    paused. *)
Definition live_only : dashboard_page.Widgets :=
  {| dashboard_page.run_live := true; dashboard_page.step_once := false;
     dashboard_page.refresh_sec := lit 1.0 |}.

Definition live_and_button : dashboard_page.Widgets :=
  {| dashboard_page.run_live := true; dashboard_page.step_once := true;
     dashboard_page.refresh_sec := lit 1.0 |}.

Definition paused : dashboard_page.Widgets :=
  {| dashboard_page.run_live := false; dashboard_page.step_once := false;
     dashboard_page.refresh_sec := lit 1.0 |}.

(* ================================================================== *)
(** * Part III: auxiliary lemmas *)

Lemma fltb_spec (x y : Qc) : BoolSpec (x < y) (y <= x) (x <? y).
Proof.
  unfold fltb. destruct (x ?= y) eqn:E; constructor.
  - apply Qceq_alt in E. subst. apply Qcle_refl.
  - now apply Qclt_alt.
  - apply Qclt_le_weak. now apply Qcgt_alt.
Qed.

Lemma fleb_spec (x y : Qc) : BoolSpec (x <= y) (y < x) (x <=? y).
Proof.
  unfold fleb. destruct (x ?= y) eqn:E; constructor.
  - apply Qceq_alt in E. subst. apply Qcle_refl.
  - apply Qclt_le_weak. now apply Qclt_alt.
  - now apply Qcgt_alt.
Qed.

Lemma fgtb_spec (x y : Qc) : BoolSpec (y < x) (x <= y) (x >? y).
Proof. unfold fgtb. apply fltb_spec. Qed.

(** Case analysis on the first comparison found in the goal. *)
Ltac case_cmp :=
  match goal with
  | |- context [?x <=? ?y] => destruct (fleb_spec x y)
  | |- context [fgtb ?x ?y] => destruct (fgtb_spec x y)
  | |- context [?x <? ?y] => destruct (fltb_spec x y)
  end.

(** Goals and hypotheses over [Qc] are brought down to [Q], where [lra]
    and [nra] apply: the operations of [Qc] are those of [Q] followed by a
    reduction to lowest terms, which does not change the value. *)
Lemma this_Q2Qc (q : Q) : (this (Q2Qc q) == q)%Q.
Proof. apply Qred_correct. Qed.

Lemma this_lit (q : Q) : (this (lit q) == q)%Q.
Proof. apply Qred_correct. Qed.

Lemma this_plus (a b : Qc) : (this (a + b) == this a + this b)%Q.
Proof. apply Qred_correct. Qed.

Lemma this_mult (a b : Qc) : (this (a * b) == this a * this b)%Q.
Proof. apply Qred_correct. Qed.

Lemma this_opp (a : Qc) : (this (- a) == - this a)%Q.
Proof. apply Qred_correct. Qed.

Lemma this_minus (a b : Qc) : (this (a - b) == this a - this b)%Q.
Proof. unfold Qcminus. rewrite this_plus, this_opp. reflexivity. Qed.

Lemma this_inv (a : Qc) : (this (/ a) == / this a)%Q.
Proof. apply Qred_correct. Qed.

Lemma this_div (a b : Qc) : (this (a / b) == this a / this b)%Q.
Proof. unfold Qcdiv. rewrite this_mult, this_inv. reflexivity. Qed.

Lemma Qc_eq_Qeq (a b : Qc) : a = b -> (this a == this b)%Q.
Proof. intros ->. reflexivity. Qed.

Create Rewrite HintDb qc_down.
#[global] Hint Rewrite this_lit this_Q2Qc this_plus this_mult this_opp
  this_minus this_div this_inv : qc_down.

Ltac qc_hyps :=
  repeat match goal with
  | H : Qcle _ _ |- _ => unfold Qcle in H
  | H : Qclt _ _ |- _ => unfold Qclt in H
  | H : @eq Qc _ _ |- _ => apply Qc_eq_Qeq in H
  end.

Ltac qc_goal :=
  match goal with
  | |- @eq Qc _ _ => apply Qc_is_canon
  | |- Qcle _ _ => unfold Qcle
  | |- Qclt _ _ => unfold Qclt
  | |- _ /\ _ => split; qc_goal
  | |- _ => idtac
  end.

Ltac qc_down :=
  qc_hyps; qc_goal; autorewrite with qc_down in *;
  unfold Qdiv in *; cbn [Qinv Qnum Qden] in *.

Ltac qc_lra := qc_down; lra.
Ltac qc_nra := qc_down; nra.

Lemma pymax_l (a b : Qc) : a <= pymax a b.
Proof. unfold pymax. destruct (fgtb_spec b a); qc_lra. Qed.

Lemma pymax_r (a b : Qc) : b <= pymax a b.
Proof. unfold pymax. destruct (fgtb_spec b a); qc_lra. Qed.

Lemma pymin_l (a b : Qc) : pymin a b <= a.
Proof. unfold pymin. destruct (fltb_spec b a); qc_lra. Qed.

Lemma pymin_r (a b : Qc) : pymin a b <= b.
Proof. unfold pymin. destruct (fltb_spec b a); qc_lra. Qed.

Lemma pymax_cases (a b : Qc) :
  (a < b /\ pymax a b = b) \/ (b <= a /\ pymax a b = a).
Proof. unfold pymax. destruct (fgtb_spec b a); auto. Qed.

Lemma pymin_cases (a b : Qc) :
  (b < a /\ pymin a b = b) \/ (a <= b /\ pymin a b = a).
Proof. unfold pymin. destruct (fltb_spec b a); auto. Qed.

Lemma fdiv_ok (x y : Qc) : y <> 0 -> fdiv x y = Ok (x / y).
Proof.
  intros Hy. unfold fdiv. destruct (Qc_eq_bool y 0) eqn:E; [|reflexivity].
  apply Qc_eq_bool_correct in E. contradiction.
Qed.

Lemma fdiv_zero (x : Qc) : fdiv x 0 = Raise ZeroDivisionError.
Proof. reflexivity. Qed.

Lemma step_fields (cfg : Config) (s : Snapshot) (g : Rng) :
  RATED_POWER cfg <> 0 -> MAX_RPM cfg <> 0 ->
  exists s',
    step cfg s g = Ok (s', advance_by 4 g) /\
    wind_speed s' =
      pymax (lit 0.0)
        (wind_speed s + draw g 0 (lit (-0.2)) (lit 0.2)
                      + draw g 1 (lit (-0.02)) (lit 0.02)) /\
    rpm s' =
      pymax (MIN_RPM cfg)
        (if wind_speed s' <? RATED_WIND cfg
         then pymin (MAX_RPM cfg) (lit 1.5 * wind_speed s')
         else MAX_RPM cfg) /\
    pitch s' =
      (if wind_speed s' <=? RATED_WIND cfg
       then MIN_PITCH cfg + draw g 2 (lit 0.0) (lit 0.3)
       else pymin (MAX_PITCH cfg) (pitch s + draw g 2 (lit 0.1) (lit 0.3))) /\
    power s' =
      (if wind_speed s' <? CUT_IN_WIND cfg then lit 0.0
       else pymin (RATED_POWER cfg)
              (EFFICIENCY cfg * lit 0.4 *
               (lit 0.5 * AIR_DENSITY cfg * ROTOR_AREA cfg * wind_speed s' ^ 3))) /\
    gen_temp s' =
      gen_temp s +
      lit 0.01 * (power s' / RATED_POWER cfg * lit 80 - gen_temp s) /\
    gb_temp s' =
      gb_temp s +
      lit 0.008 * ((power s' / RATED_POWER cfg + rpm s' / MAX_RPM cfg) * lit 90
                   - gb_temp s) /\
    vibration s' =
      pymax (lit 0.5) (vibration s + draw g 3 (lit (-0.02)) (lit 0.02)).
Proof.
  intros HP HR.
  cbv beta iota zeta delta [step uniform random bind ret M_monad lift].
  pose proof (fun x => @fdiv_ok x _ HP) as EP.
  pose proof (fun x => @fdiv_ok x _ HR) as ER.
  rewrite !EP, !ER.
  match goal with
  | |- context [?w <=? RATED_WIND cfg] =>
      destruct (fleb_spec w (RATED_WIND cfg)) as [Hle | Hgt]
  end;
    (eexists; split; [reflexivity|]);
    cbn [wind_speed rpm pitch power gen_temp gb_temp vibration];
    repeat split; try reflexivity.
  - case_cmp; [reflexivity|]. exfalso.
    eapply Qclt_not_le; eassumption.
  - case_cmp; [|reflexivity]. exfalso.
    eapply Qclt_not_le; eassumption.
Qed.

Lemma tape_advance_by (k : nat) (g : Rng) : tape (advance_by k g) = tape g.
Proof. induction k as [|k IH]; [reflexivity|]. exact IH. Qed.

Lemma admissible_advance_by (k : nat) (g : Rng) :
  admissible g -> admissible (advance_by k g).
Proof. intros H n. rewrite tape_advance_by. apply H. Qed.

Lemma draw_bounds (g : Rng) (k : nat) (a b : Qc) :
  admissible g -> a <= b -> a <= draw g k a b /\ draw g k a b <= b.
Proof.
  intros Hg Hab. unfold draw. cbv zeta. rewrite tape_advance_by.
  destruct (Hg (cursor (advance_by k g))) as [H0 H1].
  split; qc_nra.
Qed.

(** Facts about the constants of [config.py]. *)
Lemma lit_neq_0 (q : Q) : ~ (q == 0)%Q -> lit q <> 0.
Proof. intros H E. apply Q2Qc_eq_iff in E. contradiction. Qed.

Lemma RATED_POWER_nonzero : RATED_POWER config <> 0.
Proof. apply lit_neq_0. discriminate. Qed.

Lemma MAX_RPM_nonzero : MAX_RPM config <> 0.
Proof. apply lit_neq_0. discriminate. Qed.

Lemma ROTOR_AREA_value : ROTOR_AREA config = lit 5026.56.
Proof. apply Qc_decomp. reflexivity. Qed.

(** With the constants of [config.py], [step] never raises. *)
Lemma step_config_fields (s : Snapshot) (g : Rng) :
  exists s',
    step config s g = Ok (s', advance_by 4 g) /\
    wind_speed s' =
      pymax (lit 0.0)
        (wind_speed s + draw g 0 (lit (-0.2)) (lit 0.2)
                      + draw g 1 (lit (-0.02)) (lit 0.02)) /\
    rpm s' =
      pymax (lit 3.0)
        (if wind_speed s' <? lit 12.0
         then pymin (lit 18.0) (lit 1.5 * wind_speed s')
         else lit 18.0) /\
    pitch s' =
      (if wind_speed s' <=? lit 12.0
       then lit 0.0 + draw g 2 (lit 0.0) (lit 0.3)
       else pymin (lit 25.0) (pitch s + draw g 2 (lit 0.1) (lit 0.3))) /\
    power s' =
      (if wind_speed s' <? lit 3.0 then lit 0.0
       else pymin (lit 2000000)
              (lit 0.92 * lit 0.4 *
               (lit 0.5 * lit 1.225 * lit 5026.56 * wind_speed s' ^ 3))) /\
    gen_temp s' =
      gen_temp s + lit 0.01 * (power s' / lit 2000000 * lit 80 - gen_temp s) /\
    gb_temp s' =
      gb_temp s +
      lit 0.008 * ((power s' / lit 2000000 + rpm s' / lit 18.0) * lit 90
                   - gb_temp s) /\
    vibration s' =
      pymax (lit 0.5) (vibration s + draw g 3 (lit (-0.02)) (lit 0.02)).
Proof.
  destruct (step_fields config s g RATED_POWER_nonzero MAX_RPM_nonzero) as [s' H].
  rewrite ROTOR_AREA_value in H. exists s'. exact H.
Qed.

(** Bounds on the fields [step] produces, whatever the previous snapshot
    and the generator. *)
Lemma step_wind_nonneg (s' : Snapshot) (x : Qc) :
  wind_speed s' = pymax (lit 0.0) x -> 0 <= wind_speed s'.
Proof. intros ->. apply (pymax_l (lit 0.0)). Qed.

Lemma step_power_range (w p : Qc) :
  0 <= w ->
  p = (if w <? lit 3.0 then lit 0.0
       else pymin (lit 2000000)
              (lit 0.92 * lit 0.4 *
               (lit 0.5 * lit 1.225 * lit 5026.56 * w ^ 3))) ->
  0 <= p /\ p <= lit 2000000.
Proof.
  intros Hw ->. pose proof (Qcpower_pos w 3%nat Hw) as H3.
  generalize dependent (w ^ 3). intros c H3.
  case_cmp.
  - split; qc_lra.
  - destruct (pymin_cases (lit 2000000)
                (lit 0.92 * lit 0.4 * (lit 0.5 * lit 1.225 * lit 5026.56 * c)))
      as [[Hlt ->] | [Hle ->]]; split; qc_lra.
Qed.

Lemma step_rpm_range (w r : Qc) :
  r = pymax (lit 3.0)
        (if w <? lit 12.0 then pymin (lit 18.0) (lit 1.5 * w) else lit 18.0) ->
  lit 3.0 <= r /\ r <= lit 18.0.
Proof.
  intros ->. split; [apply pymax_l|].
  destruct (pymax_cases (lit 3.0)
              (if w <? lit 12.0 then pymin (lit 18.0) (lit 1.5 * w)
               else lit 18.0)) as [[_ ->] | [_ ->]]; [|qc_lra].
  case_cmp; [apply pymin_l | apply Qcle_refl].
Qed.

(** [step] reads five keys of the previous snapshot: [wind_speed],
    [pitch], [gen_temp], [gb_temp] and [vibration]. *)
Lemma step_reads (cfg : Config) (s1 s2 : Snapshot) (g : Rng) :
  wind_speed s1 = wind_speed s2 ->
  pitch s1 = pitch s2 ->
  gen_temp s1 = gen_temp s2 ->
  gb_temp s1 = gb_temp s2 ->
  vibration s1 = vibration s2 ->
  step cfg s1 g = step cfg s2 g.
Proof.
  intros Hw Hp Hg Hb Hv. unfold step.
  rewrite Hw, Hp, Hg, Hb, Hv. reflexivity.
Qed.

Lemma rng_half_admissible : admissible rng_half.
Proof. intros n. split; discriminate. Qed.

Lemma initialize_state_in_range : in_range config initialize_state.
Proof. repeat split; discriminate. Qed.










Lemma evaluate_health_generator_temp (cfg : Config) (s : Snapshot) (dt : Physics) :
  Health.generator_temp (evaluate_health cfg s dt) =
  classify (GEN_TEMP_WARN cfg) (GEN_TEMP_CRIT cfg) (gen_temp s).
Proof.
  unfold evaluate_health, classify. cbv zeta.
  repeat match goal with
         | |- context [if ?b then _ else _] => destruct b
         end; reflexivity.
Qed.

Lemma evaluate_health_gearbox_temp (cfg : Config) (s : Snapshot) (dt : Physics) :
  Health.gearbox_temp (evaluate_health cfg s dt) =
  classify (GB_TEMP_WARN cfg) (GB_TEMP_CRIT cfg) (gb_temp s).
Proof.
  unfold evaluate_health, classify. cbv zeta.
  repeat match goal with
         | |- context [if ?b then _ else _] => destruct b
         end; reflexivity.
Qed.

Lemma evaluate_health_vibration (cfg : Config) (s : Snapshot) (dt : Physics) :
  Health.vibration (evaluate_health cfg s dt) =
  classify (VIB_WARN cfg) (VIB_CRIT cfg) (vibration s).
Proof.
  unfold evaluate_health, classify. cbv zeta.
  repeat match goal with
         | |- context [if ?b then _ else _] => destruct b
         end; reflexivity.
Qed.

Lemma evaluate_health_performance (cfg : Config) (s : Snapshot) (dt : Physics) :
  Health.performance (evaluate_health cfg s dt) =
  if (cp dt <? lit 0.25) && (wind_speed s >? CUT_IN_WIND cfg) then WARN else OK.
Proof.
  unfold evaluate_health. cbv zeta.
  repeat match goal with
         | |- context [if ?b then _ else _] => destruct b
         end; reflexivity.
Qed.

(** The update of the generator temperature is a convex combination of the
    previous temperature and an equilibrium that is at most 80. *)
Lemma step_gen_temp_le_80 (s : Snapshot) (g : Rng) :
  gen_temp s <= lit 80 ->
  exists s' g', step config s g = Ok (s', g') /\ gen_temp s' <= lit 80.
Proof.
  intros HT.
  destruct (step_config_fields s g)
    as (s' & Hrun & Hw & _ & _ & Hpo & Hg & _).
  exists s', (advance_by 4 g). split; [exact Hrun|].
  destruct (step_power_range _ _ (step_wind_nonneg s' _ Hw) Hpo) as [_ Hp].
  rewrite Hg. clear - HT Hp. qc_lra.
Qed.

Lemma run_gen_temp_le_80 (n : nat) (s : Snapshot) (g : Rng) :
  gen_temp s <= lit 80 ->
  exists s' g', run config n s g = Ok (s', g') /\ gen_temp s' <= lit 80.
Proof.
  revert s g. induction n as [|n IH]; intros s g HT.
  - exists s, g. split; [reflexivity | exact HT].
  - destruct (step_gen_temp_le_80 s g HT) as (s1 & g1 & Hstep & HT1).
    destruct (IH s1 g1 HT1) as (s' & g' & Hrun & HT').
    exists s', g'. split; [|exact HT'].
    cbn [run bind M_monad]. rewrite Hstep. exact Hrun.
Qed.

(** A float strictly above a non-negative one is not zero: the guards of
    [compute_physics] make its divisions safe. *)
Lemma guard_nonzero (x e : Qc) : 0 <= e -> e < x -> x <> 0.
Proof. intros He Hx E. subst x. qc_lra. Qed.

(** [compute_physics] never raises, for any Parameter Set, and its result
    is given field by field. *)
Lemma compute_physics_fields (cfg : Config) (s : Snapshot) :
  exists ph,
    compute_physics cfg s = Ok ph /\
    omega ph = lit 2.0 * math_pi * rpm s / lit 60.0 /\
    p_wind ph =
      (if wind_speed s >? lit 0.0
       then lit 0.5 * AIR_DENSITY cfg * ROTOR_AREA cfg * wind_speed s ^ 3
       else lit 0.0) /\
    tsr ph =
      (if wind_speed s >? lit 0.1
       then omega ph * ROTOR_RADIUS cfg / wind_speed s
       else lit 0.0) /\
    cp ph =
      (if p_wind ph >? lit 1.0
       then pymin (power s / p_wind ph) (CP_MAX cfg)
       else lit 0.0) /\
    torque ph =
      (if omega ph >? lit 0.1 then power s / omega ph else lit 0.0).
Proof.
  unfold compute_physics. cbv zeta.
  rewrite (fdiv_ok _ (lit 60.0)) by (apply lit_neq_0; discriminate).
  cbn [bind ret result_monad].
  set (om := lit 2.0 * math_pi * rpm s / lit 60.0).
  set (pw := if wind_speed s >? lit 0.0
             then lit 0.5 * AIR_DENSITY cfg * ROTOR_AREA cfg * wind_speed s ^ 3
             else lit 0.0).
  assert (Htsr : exists t,
             (if wind_speed s >? lit 0.1
              then fdiv (om * ROTOR_RADIUS cfg) (wind_speed s)
              else Ok (lit 0.0)) = Ok t /\
             t = (if wind_speed s >? lit 0.1
                  then om * ROTOR_RADIUS cfg / wind_speed s else lit 0.0)).
  { destruct (fgtb_spec (wind_speed s) (lit 0.1)) as [H|H].
    - rewrite fdiv_ok by (apply (guard_nonzero _ (lit 0.1)); [discriminate | exact H]).
      eexists; split; reflexivity.
    - eexists; split; reflexivity. }
  assert (Hcp : exists c,
             (if pw >? lit 1.0
              then match fdiv (power s) pw with
                   | Ok c => Ok (pymin c (CP_MAX cfg))
                   | Raise e => Raise e
                   end
              else Ok (lit 0.0)) = Ok c /\
             c = (if pw >? lit 1.0
                  then pymin (power s / pw) (CP_MAX cfg) else lit 0.0)).
  { destruct (fgtb_spec pw (lit 1.0)) as [H|H].
    - rewrite fdiv_ok by (apply (guard_nonzero _ (lit 1.0)); [discriminate | exact H]).
      eexists; split; reflexivity.
    - eexists; split; reflexivity. }
  assert (Htq : exists t,
             (if om >? lit 0.1 then fdiv (power s) om else Ok (lit 0.0)) = Ok t /\
             t = (if om >? lit 0.1 then power s / om else lit 0.0)).
  { destruct (fgtb_spec om (lit 0.1)) as [H|H].
    - rewrite fdiv_ok by (apply (guard_nonzero _ (lit 0.1)); [discriminate | exact H]).
      eexists; split; reflexivity.
    - eexists; split; reflexivity. }
  destruct Htsr as (t & -> & Et), Hcp as (c & -> & Ec), Htq as (q & -> & Eq).
  eexists. split; [reflexivity|].
  cbn [omega p_wind tsr cp torque]. repeat split; assumption.
Qed.

Lemma lit_0 : lit 0.0 = 0.
Proof. apply Qc_decomp. reflexivity. Qed.

Lemma Physics_eq (ph : Physics) (o p t c q : Qc) :
  omega ph = o -> p_wind ph = p -> tsr ph = t -> cp ph = c -> torque ph = q ->
  ph = {| omega := o; p_wind := p; tsr := t; cp := c; torque := q |}.
Proof. destruct ph. cbn. intros. subst. reflexivity. Qed.

Lemma compute_physics_calm (s : Snapshot) :
  wind_speed s = 0 ->
  exists ph,
    compute_physics config s = Ok ph /\
    omega ph = lit 2.0 * math_pi * rpm s / lit 60.0 /\
    p_wind ph = 0 /\ tsr ph = 0 /\ cp ph = 0 /\
    torque ph =
      (if omega ph >? lit 0.1 then power s / omega ph else lit 0.0).
Proof.
  intros Hw.
  destruct (compute_physics_fields config s)
    as (ph & Hrun & Ho & Hp & Ht & Hc & Hq).
  rewrite Hw in Hp, Ht.
  change (Q2Qc 0 >? lit 0.0) with false in Hp.
  change (Q2Qc 0 >? lit 0.1) with false in Ht.
  rewrite Hp in Hc. change (lit 0.0 >? lit 1.0) with false in Hc.
  rewrite lit_0 in Hp, Ht, Hc.
  exists ph. repeat split; assumption.
Qed.

Lemma fdiv_nonneg (x y : Qc) : 0 <= x -> 0 < y -> 0 <= x / y.
Proof.
  intros Hx Hy. unfold Qcle, Qclt in *. rewrite this_div.
  rewrite this_Q2Qc in *. unfold Qdiv.
  apply Qmult_le_0_compat; [exact Hx|].
  apply Qlt_le_weak, Qinv_lt_0_compat. exact Hy.
Qed.

Lemma fdiv_above_1 (x y : Qc) : 0 < y -> y < x -> 1 < x / y.
Proof.
  intros Hy Hx. unfold Qclt in *. rewrite this_div.
  rewrite this_Q2Qc in *.
  apply Qlt_shift_div_l; [exact Hy|]. lra.
Qed.

(** [classify] in terms of the two strict thresholds, when the warning
    threshold is not above the critical one. *)
Lemma classify_spec (warn crit x : Qc) :
  warn <= crit ->
  (classify warn crit x = CRITICAL <-> crit < x) /\
  (classify warn crit x = WARN <-> warn < x /\ x <= crit) /\
  (classify warn crit x = OK <-> x <= warn).
Proof.
  intros Hwc. unfold classify.
  destruct (fgtb_spec x crit) as [Hc|Hc];
    [|destruct (fgtb_spec x warn) as [Hw|Hw]];
    repeat split; intros; try discriminate; try assumption;
    repeat match goal with H : _ /\ _ |- _ => destruct H end;
    exfalso; qc_lra.
Qed.

Lemma Health_eq (h : Health.t) (a b c d : Status) :
  Health.generator_temp h = a -> Health.gearbox_temp h = b ->
  Health.vibration h = c -> Health.performance h = d ->
  h = {| Health.generator_temp := a; Health.gearbox_temp := b;
         Health.vibration := c; Health.performance := d |}.
Proof. destruct h. cbn. intros. subst. reflexivity. Qed.

(** ** The functions on concrete inputs *)

Lemma Snapshot_eq (s : Snapshot) (w r pi po gt gb v : Qc) :
  wind_speed s = w -> rpm s = r -> pitch s = pi -> power s = po ->
  gen_temp s = gt -> gb_temp s = gb -> vibration s = v ->
  s = {| wind_speed := w; rpm := r; pitch := pi; power := po;
         gen_temp := gt; gb_temp := gb; vibration := v |}.
Proof. destruct s. cbn. intros. subst. reflexivity. Qed.

(** One step from [initialize_state()] when every [random.random()] is
    0.5, so that the wind stays at 8.0. *)
Example step_initialize_state :
  step config initialize_state rng_half =
  Ok ({| wind_speed := lit 8.0;
         rpm := lit 12.0;
         pitch := lit 0.15;
         power := lit 580089.151488;
         gen_temp := lit 39.8320356605952;
         gb_temp := lit 45.32883209453568;
         vibration := lit 2.5 |},
      advance_by 4 rng_half).
Proof.
  assert (H : exists s g,
             step config initialize_state rng_half = Ok (s, g) /\
             g = advance_by 4 rng_half /\
             wind_speed s = lit 8.0 /\ rpm s = lit 12.0 /\
             pitch s = lit 0.15 /\ power s = lit 580089.151488 /\
             gen_temp s = lit 39.8320356605952 /\
             gb_temp s = lit 45.32883209453568 /\ vibration s = lit 2.5).
  { eexists. eexists. split; [vm_compute; reflexivity|].
    split; [reflexivity|]. repeat split; apply Qc_decomp; reflexivity. }
  destruct H as (s & g & -> & -> & Hw & Hr & Hpi & Hpo & Hgt & Hgb & Hv).
  f_equal. f_equal. apply Snapshot_eq; assumption.
Qed.

(** [compute_physics] on [initialize_state()]. *)
Example compute_physics_initialize_state :
  compute_physics config initialize_state =
  Ok {| omega := lit 2.0 * math_pi * lit 8.0 / lit 60.0;
        p_wind := lit 1576329.216;
        tsr := lit 2.0 * math_pi * lit 8.0 / lit 60.0 * lit 40.0 / lit 8.0;
        cp := lit 0.0;
        torque := lit 0.0 |}.
Proof.
  destruct (compute_physics_fields config initialize_state)
    as (ph & -> & Ho & Hp & Ht & Hc & Hq).
  f_equal. rewrite Ho in Ht, Hq. rewrite Hp in Hc.
  apply Physics_eq.
  - exact Ho.
  - rewrite Hp. apply Qc_decomp. reflexivity.
  - rewrite Ht. apply Qc_decomp. reflexivity.
  - rewrite Hc. apply Qc_decomp. reflexivity.
  - rewrite Hq. apply Qc_decomp. reflexivity.
Qed.

(** With [RATED_POWER = 0] the division of [step] raises. *)
Example step_raises_without_rated_power :
  step {| AIR_DENSITY := AIR_DENSITY config;
          ROTOR_RADIUS := ROTOR_RADIUS config;
          RATED_POWER := lit 0;
          EFFICIENCY := EFFICIENCY config;
          CUT_IN_WIND := CUT_IN_WIND config;
          RATED_WIND := RATED_WIND config;
          CUT_OUT_WIND := CUT_OUT_WIND config;
          MAX_RPM := MAX_RPM config;
          MIN_RPM := MIN_RPM config;
          MIN_PITCH := MIN_PITCH config;
          MAX_PITCH := MAX_PITCH config;
          CP_MAX := CP_MAX config;
          CP_NOMINAL := CP_NOMINAL config;
          GEN_TEMP_WARN := GEN_TEMP_WARN config;
          GEN_TEMP_CRIT := GEN_TEMP_CRIT config;
          GB_TEMP_WARN := GB_TEMP_WARN config;
          GB_TEMP_CRIT := GB_TEMP_CRIT config;
          VIB_WARN := VIB_WARN config;
          VIB_CRIT := VIB_CRIT config |}
       initialize_state rng_half
  = Raise ZeroDivisionError.
Proof. vm_compute. reflexivity. Qed.

(** [evaluate_health] on [initialize_state()] and its physics: the power
    is still 0.0 while the wind is above cut-in. *)
Example evaluate_health_initialize_state :
  evaluate_health config initialize_state zero_physics =
  {| Health.generator_temp := OK;
     Health.gearbox_temp := OK;
     Health.vibration := OK;
     Health.performance := WARN |}.
Proof. reflexivity. Qed.

(* ================================================================== *)
(** * Part IV: the properties of the specification *)

(** C1. From a previous snapshot whose bounded fields lie in their declared
    ranges, and with every random draw inside its uniform range, [step]
    returns a snapshot, and that snapshot lies in the same ranges:
    [MIN_RPM <= rpm <= MAX_RPM], [MIN_PITCH <= pitch <= MAX_PITCH],
    [0 <= power <= RATED_POWER], [wind_speed >= 0], [vibration >= 0.5]. *)
Theorem step_preserves_ranges (s : Snapshot) (g : Rng) :
  in_range config s -> admissible g ->
  exists s' g', step config s g = Ok (s', g') /\ in_range config s'.
Proof.
  intros (_ & (Hp0 & Hp1) & _) Hg.
  destruct (step_config_fields s g)
    as (s' & Hrun & Hw & Hr & Hpi & Hpo & _ & _ & Hv).
  exists s', (advance_by 4 g). split; [exact Hrun|].
  pose proof (step_wind_nonneg s' _ Hw) as Hw0.
  unfold in_range. cbn [config MIN_RPM MAX_RPM MIN_PITCH MAX_PITCH RATED_POWER].
  repeat apply conj.
  - apply (step_rpm_range _ _ Hr).
  - apply (step_rpm_range _ _ Hr).
  - rewrite Hpi. cbn [config MIN_PITCH] in Hp0. case_cmp.
    + destruct (draw_bounds g 2 (lit 0.0) (lit 0.3) Hg) as [D0 D1]; qc_lra.
    + destruct (draw_bounds g 2 (lit 0.1) (lit 0.3) Hg) as [D0 D1];
        [qc_lra|].
      destruct (pymin_cases (lit 25.0)
                  (pitch s + draw g 2 (lit 0.1) (lit 0.3)))
        as [[_ ->] | [_ ->]]; qc_lra.
  - rewrite Hpi. case_cmp.
    + destruct (draw_bounds g 2 (lit 0.0) (lit 0.3) Hg) as [D0 D1]; qc_lra.
    + apply pymin_l.
  - apply (step_power_range _ _ Hw0 Hpo).
  - apply (step_power_range _ _ Hw0 Hpo).
  - exact Hw0.
  - rewrite Hv. apply pymax_l.
Qed.

Lemma step_preserves_ranges_witness :
  exists s' g',
    step config initialize_state rng_half = Ok (s', g') /\ in_range config s'.
Proof.
  apply step_preserves_ranges.
  - exact initialize_state_in_range.
  - exact rng_half_admissible.
Defined.

(** The bounds of the power coefficient for an arbitrary record: the upper
    cap always holds, the lower bound needs a power that is not negative. *)
Lemma compute_physics_cp_bounds (s : Snapshot) :
  exists ph,
    compute_physics config s = Ok ph /\
    cp ph <= CP_MAX config /\
    (lit 1.0 < p_wind ph -> p_wind ph < power s -> cp ph = CP_MAX config) /\
    (0 <= power s -> 0 <= cp ph).
Proof.
  destruct (compute_physics_fields config s)
    as (ph & Hrun & _ & _ & _ & Hc & _).
  exists ph. split; [exact Hrun|].
  cbn [config CP_MAX] in *. rewrite Hc. repeat apply conj.
  - case_cmp; [apply pymin_r | discriminate].
  - intros H1 Hpw. case_cmp; [|exfalso; qc_lra].
    assert (Hgt : 1 < power s / p_wind ph) by (apply fdiv_above_1; qc_lra).
    destruct (pymin_cases (power s / p_wind ph) (lit 0.59))
      as [[_ ->] | [Hle _]]; [reflexivity | exfalso; qc_lra].
  - intros Hp. case_cmp; [|discriminate].
    assert (Hge : 0 <= power s / p_wind ph) by (apply fdiv_nonneg; qc_lra).
    destruct (pymin_cases (power s / p_wind ph) (lit 0.59))
      as [[_ ->] | [_ ->]]; [discriminate | exact Hge].
Qed.

(** Outside the declared range of [power] the lower bound is lost, since
    [compute_physics] applies only the cap [min(cp, CP_MAX)]: with wind
    speed 8.0 and power -1000.0 the coefficient is negative. *)
Example compute_physics_cp_negative :
  exists ph,
    compute_physics config negative_power_snapshot = Ok ph /\
    cp ph < 0 /\
    ~ (0 <= cp ph /\ cp ph <= CP_MAX config).
Proof.
  eexists. split; [vm_compute; reflexivity|].
  split; [reflexivity|]. intros [H _]. apply H. reflexivity.
Qed.

(** C2. For every snapshot, that is every record whose fields lie in the
    ranges the data model declares for a SCADA snapshot, [compute_physics]
    returns a record whose power coefficient satisfies
    [0 <= cp <= CP_MAX]; the coefficient is [CP_MAX] itself when the
    available wind power exceeds 1.0 and the measured power exceeds the
    available wind power.  Of the declared ranges only [power >= 0] is
    used. *)
Theorem compute_physics_cp_range (s : Snapshot) :
  in_range config s ->
  exists ph,
    compute_physics config s = Ok ph /\
    (0 <= cp ph /\ cp ph <= CP_MAX config) /\
    (lit 1.0 < p_wind ph -> p_wind ph < power s -> cp ph = CP_MAX config).
Proof.
  intros (_ & _ & (Hp & _) & _).
  destruct (compute_physics_cp_bounds s) as (ph & Hrun & Hle & Hcap & Hge).
  exists ph. split; [exact Hrun|]. split; [|exact Hcap].
  split; [exact (Hge Hp) | exact Hle].
Qed.

Lemma compute_physics_cp_range_witness :
  exists ph,
    compute_physics config initialize_state = Ok ph /\
    (0 <= cp ph /\ cp ph <= CP_MAX config) /\
    (lit 1.0 < p_wind ph -> p_wind ph < power initialize_state ->
     cp ph = CP_MAX config).
Proof.
  apply compute_physics_cp_range. exact initialize_state_in_range.
Defined.

(** C3, as stated, fails: nothing checks the Parameter Set.  With
    [MIN_RPM] above [MAX_RPM] the dashboard still initialises and steps the
    simulator, which returns a snapshot whose [rpm] exceeds [MAX_RPM]. *)
Lemma inconsistent_config_proceeds :
  ~ consistent inverted_rpm_config /\
  exists s g',
    session inverted_rpm_config 1 rng_half = Ok (s, g') /\
    MAX_RPM inverted_rpm_config < rpm s.
Proof.
  split.
  - intros (_ & H & _). revert H. discriminate.
  - eexists. eexists. split; [vm_compute; reflexivity | reflexivity].
Qed.

(** C3, amended. The Parameter Set written in [config.py] is internally
    consistent: [RATED_WIND > CUT_IN_WIND], [MAX_RPM > MIN_RPM],
    [MAX_PITCH >= MIN_PITCH], [CP_MAX >= CP_NOMINAL], and each warning
    threshold is strictly below its critical threshold. *)
Theorem config_consistent : consistent config.
Proof. repeat split; discriminate. Qed.


(** C4. The performance channel of [evaluate_health] is [WARN] exactly when
    the supplied [cp] is below 0.25 and the wind speed exceeds
    [CUT_IN_WIND], and [OK] otherwise; it is never [CRITICAL]; with wind
    speed 2 and [cp] 0 it is [OK]. *)
Theorem evaluate_health_performance_channel (s : Snapshot) (dt : Physics) :
  let h := evaluate_health config s dt in
  (Health.performance h = WARN <->
     cp dt < lit 0.25 /\ CUT_IN_WIND config < wind_speed s) /\
  (Health.performance h = OK <->
     ~ (cp dt < lit 0.25 /\ CUT_IN_WIND config < wind_speed s)) /\
  Health.performance h <> CRITICAL /\
  (wind_speed s = lit 2 -> cp dt = 0 -> Health.performance h = OK).
Proof.
  cbv zeta. rewrite evaluate_health_performance.
  cbn [config CUT_IN_WIND].
  destruct (fltb_spec (cp dt) (lit 0.25)) as [Hc|Hc];
    destruct (fgtb_spec (wind_speed s) (lit 3.0)) as [Hw|Hw];
    cbn [andb]; repeat split; unfold not; intros;
    try discriminate; try assumption;
    repeat match goal with
           | H : _ /\ _ |- _ => destruct H
           | H : _ -> False |- _ => exfalso; apply H; split; assumption
           | H : wind_speed s = _ |- _ => rewrite H in *
           end;
    try (exfalso; qc_lra).
Qed.

Lemma evaluate_health_performance_channel_witness :
  Health.performance (evaluate_health config idle_snapshot zero_physics) = OK.
Proof.
  destruct (evaluate_health_performance_channel idle_snapshot zero_physics)
    as (_ & _ & _ & H).
  apply H; reflexivity.
Defined.







(** C6. [evaluate_health] reports the generator-temperature channel as
    [CRITICAL] exactly when [gen_temp > GEN_TEMP_CRIT], as [WARN] exactly
    when [GEN_TEMP_WARN < gen_temp <= GEN_TEMP_CRIT], and as [OK] exactly
    when [gen_temp <= GEN_TEMP_WARN]; likewise the gearbox-temperature
    channel against [GB_TEMP_WARN] and [GB_TEMP_CRIT] and the vibration
    channel against [VIB_WARN] and [VIB_CRIT].  Each of the three channels
    depends on its own reading only.  On a snapshot with [gen_temp] 96,
    [gb_temp] 70, [vibration] 2 and [wind_speed] 8, and any physics record
    with [cp >= 0.25], the result is
    [{generator_temp: CRITICAL, gearbox_temp: OK, vibration: OK,
      performance: OK}]. *)
Theorem evaluate_health_threshold_channels (s : Snapshot) (dt : Physics) :
  let h := evaluate_health config s dt in
  ((Health.generator_temp h = CRITICAL <-> GEN_TEMP_CRIT config < gen_temp s) /\
   (Health.generator_temp h = WARN <->
      GEN_TEMP_WARN config < gen_temp s /\ gen_temp s <= GEN_TEMP_CRIT config) /\
   (Health.generator_temp h = OK <-> gen_temp s <= GEN_TEMP_WARN config)) /\
  ((Health.gearbox_temp h = CRITICAL <-> GB_TEMP_CRIT config < gb_temp s) /\
   (Health.gearbox_temp h = WARN <->
      GB_TEMP_WARN config < gb_temp s /\ gb_temp s <= GB_TEMP_CRIT config) /\
   (Health.gearbox_temp h = OK <-> gb_temp s <= GB_TEMP_WARN config)) /\
  ((Health.vibration h = CRITICAL <-> VIB_CRIT config < vibration s) /\
   (Health.vibration h = WARN <->
      VIB_WARN config < vibration s /\ vibration s <= VIB_CRIT config) /\
   (Health.vibration h = OK <-> vibration s <= VIB_WARN config)) /\
  (forall s2 dt2,
      (gen_temp s2 = gen_temp s ->
       Health.generator_temp (evaluate_health config s2 dt2) =
       Health.generator_temp h) /\
      (gb_temp s2 = gb_temp s ->
       Health.gearbox_temp (evaluate_health config s2 dt2) =
       Health.gearbox_temp h) /\
      (vibration s2 = vibration s ->
       Health.vibration (evaluate_health config s2 dt2) =
       Health.vibration h)) /\
  (gen_temp s = lit 96 -> gb_temp s = lit 70 -> vibration s = lit 2 ->
   wind_speed s = lit 8 -> lit 0.25 <= cp dt ->
   h = {| Health.generator_temp := CRITICAL;
          Health.gearbox_temp := OK;
          Health.vibration := OK;
          Health.performance := OK |}).
Proof.
  cbv zeta. split; [|split; [|split; [|split]]].
  - rewrite evaluate_health_generator_temp.
    apply classify_spec. discriminate.
  - rewrite evaluate_health_gearbox_temp.
    apply classify_spec. discriminate.
  - rewrite evaluate_health_vibration.
    apply classify_spec. discriminate.
  - intros s2 dt2. repeat split; intros E.
    + rewrite !evaluate_health_generator_temp, E. reflexivity.
    + rewrite !evaluate_health_gearbox_temp, E. reflexivity.
    + rewrite !evaluate_health_vibration, E. reflexivity.
  - intros Eg Eb Ev Ew Hcp. apply Health_eq.
    + rewrite evaluate_health_generator_temp, Eg. reflexivity.
    + rewrite evaluate_health_gearbox_temp, Eb. reflexivity.
    + rewrite evaluate_health_vibration, Ev. reflexivity.
    + rewrite evaluate_health_performance.
      destruct (fltb_spec (cp dt) (lit 0.25)); [exfalso; qc_lra | reflexivity].
Qed.

Lemma evaluate_health_threshold_channels_witness :
  evaluate_health config hot_generator_snapshot nominal_physics =
  {| Health.generator_temp := CRITICAL;
     Health.gearbox_temp := OK;
     Health.vibration := OK;
     Health.performance := OK |}.
Proof.
  destruct (evaluate_health_threshold_channels
              hot_generator_snapshot nominal_physics)
    as (_ & _ & _ & _ & H).
  apply H; try reflexivity. discriminate.
Defined.

(** C7. On a snapshot whose wind speed is 0.0, [compute_physics] returns
    normally (no [ZeroDivisionError]) a record whose available wind power,
    tip-speed ratio and power coefficient are 0; on a snapshot with
    [wind_speed], [rpm] and [power] all 0 it returns exactly
    [{omega: 0, p_wind: 0, tsr: 0, cp: 0, torque: 0}]. *)
Theorem compute_physics_zero_wind :
  (forall s,
      wind_speed s = 0 ->
      exists ph,
        compute_physics config s = Ok ph /\
        p_wind ph = 0 /\ tsr ph = 0 /\ cp ph = 0) /\
  (forall s,
      wind_speed s = 0 -> rpm s = 0 -> power s = 0 ->
      compute_physics config s =
      Ok {| omega := 0; p_wind := 0; tsr := 0; cp := 0; torque := 0 |}).
Proof.
  split.
  - intros s Hw.
    destruct (compute_physics_calm s Hw) as (ph & Hrun & _ & Hp & Ht & Hc & _).
    exists ph. repeat split; assumption.
  - intros s Hw Hr Hpw.
    destruct (compute_physics_calm s Hw) as (ph & Hrun & Ho & Hp & Ht & Hc & Hq).
    rewrite Hrun. f_equal.
    assert (Ho0 : omega ph = 0) by (rewrite Ho, Hr; apply Qc_decomp; reflexivity).
    rewrite Ho0 in Hq. change (Q2Qc 0 >? lit 0.1) with false in Hq.
    rewrite lit_0 in Hq.
    apply Physics_eq; assumption.
Qed.

Lemma compute_physics_zero_wind_witness :
  compute_physics config calm_snapshot =
  Ok {| omega := 0; p_wind := 0; tsr := 0; cp := 0; torque := 0 |}.
Proof.
  destruct compute_physics_zero_wind as [_ H].
  apply H; reflexivity.
Defined.

(** C8. Whatever the previous snapshot and the random draws, [step] returns
    a snapshot whose [rpm] is [max(MIN_RPM, min(MAX_RPM, 1.5 * w))] when the
    new wind speed [w] is strictly below [RATED_WIND], and [MAX_RPM] when
    [w] is at or above [RATED_WIND]; replacing the previous [rpm] by any
    other value leaves the result unchanged. *)
Theorem step_rpm_control_law (s : Snapshot) (g : Rng) :
  exists s' g',
    step config s g = Ok (s', g') /\
    (wind_speed s' < RATED_WIND config ->
     rpm s' =
       pymax (MIN_RPM config)
         (pymin (MAX_RPM config) (lit 1.5 * wind_speed s'))) /\
    (RATED_WIND config <= wind_speed s' -> rpm s' = MAX_RPM config) /\
    (forall r, step config (with_rpm_power r (power s) s) g = Ok (s', g')).
Proof.
  destruct (step_config_fields s g) as (s' & Hrun & _ & Hr & _).
  exists s', (advance_by 4 g). split; [exact Hrun|].
  cbn [config RATED_WIND MIN_RPM MAX_RPM]. repeat apply conj.
  - intros Hlt. rewrite Hr. case_cmp; [reflexivity|].
    exfalso. eapply Qclt_not_le; eassumption.
  - intros Hge. rewrite Hr. case_cmp; [|reflexivity].
    exfalso. eapply Qclt_not_le; eassumption.
  - intros r. rewrite <- Hrun. apply step_reads; reflexivity.
Qed.

Lemma step_rpm_control_law_witness :
  exists s' g',
    step config initialize_state rng_half = Ok (s', g') /\
    rpm s' = lit 12.0 /\
    step config (with_rpm_power (lit 17.0) (lit 0.0) initialize_state) rng_half
      = Ok (s', g').
Proof.
  destruct (step_rpm_control_law initialize_state rng_half)
    as (s' & g' & Hrun & Hlow & _ & Hany).
  exists s', g'. split; [exact Hrun|]. split.
  - assert (Hw : wind_speed s' = lit 8.0).
    { pose proof Hrun as E. vm_compute in E.
      injection E as <- _. apply Qc_decomp. reflexivity. }
    rewrite Hlow; rewrite Hw; [|reflexivity].
    apply Qc_decomp. reflexivity.
  - exact (Hany (lit 17.0)).
Defined.

(** C9. A previous generator temperature of at most 80 gives, whatever the
    random draws, a snapshot whose generator temperature is at most 80 (the
    bound on the previous power is not needed: [step] does not read it).
    Hence after any number of steps from [initialize_state()] the dashboard
    holds a snapshot whose generator temperature is at most 80, strictly
    below [GEN_TEMP_WARN], and on which [evaluate_health] reports the
    generator-temperature channel as [OK] for every physics record. *)
Theorem gen_temp_never_alarms :
  (forall s g,
      gen_temp s <= lit 80 ->
      exists s' g', step config s g = Ok (s', g') /\ gen_temp s' <= lit 80) /\
  (forall n g,
      exists s g',
        session config n g = Ok (s, g') /\
        gen_temp s <= lit 80 /\
        gen_temp s < GEN_TEMP_WARN config /\
        forall dt,
          Health.generator_temp (evaluate_health config s dt) = OK).
Proof.
  split; [exact step_gen_temp_le_80|].
  intros n g. unfold session.
  destruct (run_gen_temp_le_80 n initialize_state g) as (s & g' & Hrun & HT);
    [discriminate|].
  exists s, g'. split; [exact Hrun|]. split; [exact HT|].
  assert (HW : gen_temp s < GEN_TEMP_WARN config)
    by (cbn [config GEN_TEMP_WARN]; qc_lra).
  split; [exact HW|]. intros dt.
  rewrite evaluate_health_generator_temp. unfold classify.
  cbn [config GEN_TEMP_WARN GEN_TEMP_CRIT] in *.
  case_cmp; [exfalso; qc_lra|].
  case_cmp; [exfalso; qc_lra | reflexivity].
Qed.

Lemma gen_temp_never_alarms_witness :
  exists s' g',
    step config initialize_state rng_half = Ok (s', g') /\
    gen_temp s' <= lit 80.
Proof.
  destruct gen_temp_never_alarms as [Hstep _].
  apply Hstep. discriminate.
Defined.

(** C10. [step] never reads the previous [rpm] or [power]: two previous
    snapshots that agree on [wind_speed], [pitch], [gen_temp], [gb_temp]
    and [vibration] give the same result, exception or snapshot and next
    generator state, on the same sequence of random draws. *)
Theorem step_ignores_rpm_power (s1 s2 : Snapshot) (g : Rng) :
  wind_speed s1 = wind_speed s2 ->
  pitch s1 = pitch s2 ->
  gen_temp s1 = gen_temp s2 ->
  gb_temp s1 = gb_temp s2 ->
  vibration s1 = vibration s2 ->
  step config s1 g = step config s2 g.
Proof. apply step_reads. Qed.

Lemma step_ignores_rpm_power_witness :
  step config initialize_state rng_half =
  step config (with_rpm_power (lit 17.5) (lit 1500000) initialize_state)
    rng_half.
Proof.
  apply step_ignores_rpm_power; reflexivity.
Defined.

(* ================================================================== *)
(** * Part V: further properties of the code *)

(** ** Exceptions and random draws of the simulator *)

Lemma step_raises_rated_power (cfg : Config) (s : Snapshot) (g : Rng) :
  RATED_POWER cfg = 0 -> step cfg s g = Raise ZeroDivisionError.
Proof.
  intros H0.
  cbv beta iota zeta delta [step uniform random bind ret M_monad lift].
  rewrite H0.
  match goal with
  | |- context [?w <=? RATED_WIND cfg] => destruct (w <=? RATED_WIND cfg)
  end; reflexivity.
Qed.

Lemma step_raises_max_rpm (cfg : Config) (s : Snapshot) (g : Rng) :
  RATED_POWER cfg <> 0 -> MAX_RPM cfg = 0 ->
  step cfg s g = Raise ZeroDivisionError.
Proof.
  intros HP H0.
  cbv beta iota zeta delta [step uniform random bind ret M_monad lift].
  pose proof (fun x => @fdiv_ok x _ HP) as EP. rewrite !EP.
  rewrite H0.
  match goal with
  | |- context [?w <=? RATED_WIND cfg] => destruct (w <=? RATED_WIND cfg)
  end; reflexivity.
Qed.

(** X1. For every Parameter Set, previous snapshot and generator state,
    [step] raises [ZeroDivisionError] when [RATED_POWER] or [MAX_RPM] is
    zero, and otherwise returns a snapshot after exactly four calls of the
    random generator, whichever branches are taken. *)
Theorem step_raises_or_draws_four (cfg : Config) (s : Snapshot) (g : Rng) :
  (RATED_POWER cfg = 0 \/ MAX_RPM cfg = 0 ->
   step cfg s g = Raise ZeroDivisionError) /\
  (RATED_POWER cfg <> 0 -> MAX_RPM cfg <> 0 ->
   exists s', step cfg s g = Ok (s', advance_by 4 g)).
Proof.
  split.
  - intros [H | H].
    + now apply step_raises_rated_power.
    + destruct (Qc_eq_dec (RATED_POWER cfg) 0) as [E | N].
      * now apply step_raises_rated_power.
      * now apply step_raises_max_rpm.
  - intros HP HR. destruct (step_fields cfg s g HP HR) as (s' & H & _).
    exists s'. exact H.
Qed.

Lemma step_raises_or_draws_four_witness :
  (exists s', step config initialize_state rng_half
              = Ok (s', advance_by 4 rng_half)) /\
  step {| AIR_DENSITY := lit 1.225; ROTOR_RADIUS := lit 40.0;
          RATED_POWER := lit 2000000; EFFICIENCY := lit 0.92;
          CUT_IN_WIND := lit 3.0; RATED_WIND := lit 12.0;
          CUT_OUT_WIND := lit 25.0; MAX_RPM := 0; MIN_RPM := lit 3.0;
          MIN_PITCH := lit 0.0; MAX_PITCH := lit 25.0; CP_MAX := lit 0.59;
          CP_NOMINAL := lit 0.45; GEN_TEMP_WARN := lit 85.0;
          GEN_TEMP_CRIT := lit 95.0; GB_TEMP_WARN := lit 90.0;
          GB_TEMP_CRIT := lit 100.0; VIB_WARN := lit 6.0;
          VIB_CRIT := lit 10.0 |} initialize_state rng_half
  = Raise ZeroDivisionError.
Proof.
  split.
  - apply step_raises_or_draws_four.
    + exact RATED_POWER_nonzero.
    + exact MAX_RPM_nonzero.
  - apply step_raises_or_draws_four. right. reflexivity.
Defined.

(** The last of [n + 1] steps. *)
Lemma run_snoc (cfg : Config) (n : nat) (s : Snapshot) (g : Rng) :
  run cfg (S n) s g =
  match run cfg n s g with
  | Ok (s1, g1) => step cfg s1 g1
  | Raise e => Raise e
  end.
Proof.
  revert s g. induction n as [|n IH]; intros s g.
  - cbn [run bind ret M_monad]. destruct (step cfg s g) as [[s1 g1]|e]; reflexivity.
  - change (run cfg (S (S n)) s g)
      with (match step cfg s g with
            | Ok (s1, g1) => run cfg (S n) s1 g1
            | Raise e => Raise e
            end).
    change (run cfg (S n) s g)
      with (match step cfg s g with
            | Ok (s1, g1) => run cfg n s1 g1
            | Raise e => Raise e
            end).
    destruct (step cfg s g) as [[s1 g1]|e]; [apply IH | reflexivity].
Qed.

Lemma advance_by_add (a b : nat) (g : Rng) :
  advance_by a (advance_by b g) = advance_by (a + b) g.
Proof.
  unfold advance_by. induction a as [|a IH]; [reflexivity|].
  cbn [Nat.add Nat.iter nat_rect]. f_equal. exact IH.
Qed.

(** Induction along the steps of a session with the constants of
    [config.py]: a property that holds of the first snapshot and that every
    step carries over holds after any number of steps, and the generator
    has then been called [4 * n] times. *)
Lemma run_induction (P : nat -> Snapshot -> Prop) (s0 : Snapshot) (g : Rng) :
  P 0%nat s0 ->
  (forall k s s' gk,
      gk = advance_by (4 * k) g -> P k s ->
      step config s gk = Ok (s', advance_by 4 gk) -> P (S k) s') ->
  forall n,
    exists s', run config n s0 g = Ok (s', advance_by (4 * n) g) /\ P n s'.
Proof.
  intros H0 Hstep n. induction n as [|n (s1 & Hrun & HP)].
  - exists s0. split; [reflexivity | exact H0].
  - rewrite run_snoc, Hrun.
    destruct (step_config_fields s1 (advance_by (4 * n) g)) as (s' & Hs & _).
    exists s'. split.
    + rewrite Hs. f_equal. f_equal. rewrite advance_by_add. f_equal.
      lia.
    + eapply Hstep; [reflexivity | exact HP | exact Hs].
Qed.

(** With the constants of [config.py], any number of steps from any
    snapshot returns. *)
Lemma run_config_ok (n : nat) (s : Snapshot) (g : Rng) :
  exists s', run config n s g = Ok (s', advance_by (4 * n) g).
Proof.
  destruct (run_induction (fun _ _ => True) s g I
              (fun _ _ _ _ _ _ _ => I) n) as (s' & H & _).
  exists s'. exact H.
Qed.

(** X2. With the constants of [config.py] a session never raises, and after
    [n] steps it has called the random generator exactly [4 * n] times,
    whatever the draws were. *)
Theorem session_draws (n : nat) (g : Rng) :
  exists s, session config n g = Ok (s, advance_by (4 * n) g).
Proof.
  destruct (run_induction (fun _ _ => True) initialize_state g I
              (fun _ _ _ _ _ _ _ => I) n) as (s & H & _).
  exists s. exact H.
Qed.

(** ** The two random walks *)

Lemma rng_one_admissible : admissible rng_one.
Proof. intros n. split; discriminate. Qed.

Lemma this_of_nat_S (n : nat) :
  (this (of_nat (S n)) == this (of_nat n) + 1)%Q.
Proof.
  unfold of_nat. rewrite !this_lit, Nat2Z.inj_succ. unfold Z.succ.
  rewrite inject_Z_plus. reflexivity.
Qed.

Lemma this_of_nat_0 : (this (of_nat 0) == 0)%Q.
Proof. reflexivity. Qed.

Lemma of_nat_le (n m : nat) : (n <= m)%nat -> of_nat n <= of_nat m.
Proof.
  intros H. unfold Qcle, of_nat. rewrite !this_lit.
  rewrite <- Zle_Qle. apply Nat2Z.inj_le. exact H.
Qed.

(** A clamped walk stays within the size of its increment. *)
Lemma step_walks_of_step (s s' : Snapshot) (g g' : Rng) :
  admissible g -> 0 <= wind_speed s -> lit 0.5 <= vibration s ->
  step config s g = Ok (s', g') ->
  (0 <= wind_speed s' /\ lit 0.5 <= vibration s') /\
  (wind_speed s - lit 0.22 <= wind_speed s' /\
   wind_speed s' <= wind_speed s + lit 0.22) /\
  (vibration s - lit 0.02 <= vibration s' /\
   vibration s' <= vibration s + lit 0.02).
Proof.
  intros Hg Hw Hv Hstep.
  destruct (step_config_fields s g) as (s2 & Hrun & Ew & _ & _ & _ & _ & _ & Ev).
  rewrite Hstep in Hrun. assert (E : s' = s2) by congruence. subst s2.
  clear Hstep.
  destruct (draw_bounds g 0 (lit (-0.2)) (lit 0.2) Hg) as [A0 A1];
    [discriminate|].
  destruct (draw_bounds g 1 (lit (-0.02)) (lit 0.02) Hg) as [B0 B1];
    [discriminate|].
  destruct (draw_bounds g 3 (lit (-0.02)) (lit 0.02) Hg) as [C0 C1];
    [discriminate|].
  rewrite Ew, Ev. clear Ew Ev.
  generalize dependent (draw g 0 (lit (-0.2)) (lit 0.2)).
  generalize dependent (draw g 1 (lit (-0.02)) (lit 0.02)).
  generalize dependent (draw g 3 (lit (-0.02)) (lit 0.02)).
  intros c C0 C1 b B0 B1 a A0 A1.
  destruct (pymax_cases (lit 0.0) (wind_speed s + a + b)) as [[H1 ->] | [H1 ->]];
    destruct (pymax_cases (lit 0.5) (vibration s + c)) as [[H2 ->] | [H2 ->]];
    repeat split; qc_lra.
Qed.



(** The drift of a session, together with the two floors. *)
Lemma run_drift (n : nat) (g : Rng) :
  admissible g ->
  exists s,
    run config n initialize_state g = Ok (s, advance_by (4 * n) g) /\
    (0 <= wind_speed s /\ lit 0.5 <= vibration s) /\
    (lit 8.0 - lit 0.22 * of_nat n <= wind_speed s /\
     wind_speed s <= lit 8.0 + lit 0.22 * of_nat n) /\
    (lit 2.5 - lit 0.02 * of_nat n <= vibration s /\
     vibration s <= lit 2.5 + lit 0.02 * of_nat n).
Proof.
  intros Hg.
  apply (run_induction
           (fun k s =>
              (0 <= wind_speed s /\ lit 0.5 <= vibration s) /\
              (lit 8.0 - lit 0.22 * of_nat k <= wind_speed s /\
               wind_speed s <= lit 8.0 + lit 0.22 * of_nat k) /\
              (lit 2.5 - lit 0.02 * of_nat k <= vibration s /\
               vibration s <= lit 2.5 + lit 0.02 * of_nat k))
           initialize_state g).
  - repeat split; discriminate.
  - intros k s s' gk -> ((Hw & Hv) & (W0 & W1) & (V0 & V1)) Hstep.
    destruct (step_walks_of_step s s' _ _
                (admissible_advance_by (4 * k) g Hg) Hw Hv Hstep)
      as ((Hw' & Hv') & (A0 & A1) & (B0 & B1)).
    pose proof (this_of_nat_S k) as HS. clear Hstep.
    generalize dependent (of_nat (S k)). generalize dependent (of_nat k).
    intros a W0 W1 V0 V1 b HS.
    repeat split; try assumption; qc_lra.
Qed.



(** ** The control laws as functions of the new wind speed *)

Lemma this_cube (a : Qc) : (this (a ^ 3) == this a * this a * this a)%Q.
Proof.
  cbn [Qcpower]. rewrite !this_mult, this_Q2Qc. ring.
Qed.

Lemma cube_le (a b : Qc) : 0 <= a -> a <= b -> a ^ 3 <= b ^ 3.
Proof.
  intros Ha Hab. unfold Qcle in *. rewrite !this_cube.
  rewrite this_Q2Qc in Ha.
  generalize dependent (this a). generalize dependent (this b).
  intros y x Hx Hxy.
  assert (Hy : (0 <= y)%Q) by lra.
  assert (H1 : (x * x <= y * y)%Q) by nra.
  assert (H2 : (0 <= x * x)%Q) by nra.
  nra.
Qed.

(** The rotor speed of a snapshot returned by [step]. *)
Lemma rpm_piecewise_of_step (s s' : Snapshot) (g g' : Rng) :
  step config s g = Ok (s', g') ->
  (wind_speed s' <= lit 2 -> rpm s' = lit 3.0) /\
  (lit 2 <= wind_speed s' -> wind_speed s' <= lit 12.0 ->
   rpm s' = lit 1.5 * wind_speed s') /\
  (lit 12.0 <= wind_speed s' -> rpm s' = lit 18.0).
Proof.
  intros Hstep.
  destruct (step_config_fields s g) as (s2 & Hrun & _ & Er & _).
  rewrite Hstep in Hrun. assert (E : s' = s2) by congruence. subst s2.
  clear Hstep.
  rewrite Er. clear Er Hrun. generalize (wind_speed s'). intros w.
  repeat split.
  - intros H. case_cmp; [|exfalso; qc_lra].
    destruct (pymin_cases (lit 18.0) (lit 1.5 * w)) as [[H1 ->] | [H1 ->]];
      [|exfalso; qc_lra].
    destruct (pymax_cases (lit 3.0) (lit 1.5 * w)) as [[H2 ->] | [H2 ->]];
      [qc_lra | reflexivity].
  - intros H2 H12. case_cmp.
    + destruct (pymin_cases (lit 18.0) (lit 1.5 * w)) as [[H1 ->] | [H1 ->]];
        [|exfalso; qc_lra].
      destruct (pymax_cases (lit 3.0) (lit 1.5 * w)) as [[H3 ->] | [H3 ->]];
        [reflexivity | qc_lra].
    + change (pymax (lit 3.0) (lit 18.0)) with (lit 18.0). qc_lra.
  - intros H. case_cmp; [exfalso; qc_lra | reflexivity].
Qed.

(** X5. The rotor speed returned by [step] is piecewise linear in the new
    wind speed [w]: [MIN_RPM = 3] up to [w = 2], [1.5 * w] between 2 and
    [RATED_WIND = 12], and [MAX_RPM = 18] from there on; the cap
    [min(MAX_RPM, 1.5 * w)] of the below-rated branch never binds. *)
Theorem step_rpm_piecewise (s : Snapshot) (g : Rng) :
  exists s' g',
    step config s g = Ok (s', g') /\
    (wind_speed s' <= lit 2 -> rpm s' = lit 3.0) /\
    (lit 2 <= wind_speed s' -> wind_speed s' <= lit 12.0 ->
     rpm s' = lit 1.5 * wind_speed s') /\
    (lit 12.0 <= wind_speed s' -> rpm s' = lit 18.0).
Proof.
  destruct (step_config_fields s g) as (s' & Hrun & _).
  exists s', (advance_by 4 g). split; [exact Hrun|].
  exact (rpm_piecewise_of_step s s' g (advance_by 4 g) Hrun).
Qed.

Lemma step_rpm_piecewise_witness :
  exists s' g',
    step config initialize_state rng_half = Ok (s', g') /\
    rpm s' = lit 1.5 * wind_speed s'.
Proof.
  destruct (step_rpm_piecewise initialize_state rng_half)
    as (s' & g' & Hrun & _ & Hmid & _).
  exists s', g'. split; [exact Hrun|].
  assert (Hw : wind_speed s' = lit 8.0).
  { pose proof Hrun as E. rewrite step_initialize_state in E.
    injection E as <- _. reflexivity. }
  apply Hmid; rewrite Hw; discriminate.
Defined.

(** The power of a snapshot returned by [step]. *)
Lemma power_curve_of_step (s s' : Snapshot) (g g' : Rng) :
  step config s g = Ok (s', g') ->
  (wind_speed s' < lit 3.0 -> power s' = 0) /\
  (lit 3.0 <= wind_speed s' -> 0 < power s') /\
  (wind_speed s' <= lit 12.0 -> power s' < lit 2000000) /\
  (lit 12.1 <= wind_speed s' -> power s' = lit 2000000).
Proof.
  intros Hstep.
  destruct (step_config_fields s g) as (s2 & Hrun & Ew & _ & _ & Ep & _).
  rewrite Hstep in Hrun. assert (E : s' = s2) by congruence. subst s2.
  clear Hstep.
  pose proof (step_wind_nonneg s' _ Ew) as Hw0.
  rewrite Ep. clear Ep Ew Hrun. generalize dependent (wind_speed s').
  intros w Hw0. repeat split.
  - intros H. case_cmp; [apply lit_0 | exfalso; qc_lra].
  - intros H. case_cmp; [exfalso; qc_lra|].
    assert (H3 : lit 3.0 ^ 3 <= w ^ 3) by (apply cube_le; [discriminate | exact H]).
    assert (E27 : lit 3.0 ^ 3 = lit 27) by (apply Qc_decomp; reflexivity).
    rewrite E27 in H3. generalize dependent (w ^ 3). intros c H3.
    destruct (pymin_cases (lit 2000000)
                (lit 0.92 * lit 0.4 * (lit 0.5 * lit 1.225 * lit 5026.56 * c)))
      as [[_ ->] | [_ ->]]; qc_lra.
  - intros H. case_cmp; [qc_lra|].
    assert (H3 : w ^ 3 <= lit 12.0 ^ 3) by (apply cube_le; assumption).
    assert (E : lit 12.0 ^ 3 = lit 1728) by (apply Qc_decomp; reflexivity).
    rewrite E in H3. generalize dependent (w ^ 3). intros c H3.
    destruct (pymin_cases (lit 2000000)
                (lit 0.92 * lit 0.4 * (lit 0.5 * lit 1.225 * lit 5026.56 * c)))
      as [[_ ->] | [H1 ->]]; [qc_lra | exfalso; qc_lra].
  - intros H. case_cmp; [exfalso; qc_lra|].
    assert (H3 : lit 12.1 ^ 3 <= w ^ 3) by (apply cube_le; [discriminate | exact H]).
    assert (E : lit 12.1 ^ 3 = lit 1771.561) by (apply Qc_decomp; reflexivity).
    rewrite E in H3. generalize dependent (w ^ 3). intros c H3.
    destruct (pymin_cases (lit 2000000)
                (lit 0.92 * lit 0.4 * (lit 0.5 * lit 1.225 * lit 5026.56 * c)))
      as [[H1 ->] | [_ ->]]; [exfalso; qc_lra | reflexivity].
Qed.

(** X6. The power returned by [step] as a function of the new wind speed
    [w]: zero below [CUT_IN_WIND = 3], positive from 3 on, still strictly
    below [RATED_POWER] at [RATED_WIND = 12] and below, and equal to
    [RATED_POWER] from 12.1 on, with no cut-out: [CUT_OUT_WIND = 25] does
    not end it. *)
Theorem step_power_curve (s : Snapshot) (g : Rng) :
  exists s' g',
    step config s g = Ok (s', g') /\
    (wind_speed s' < lit 3.0 -> power s' = 0) /\
    (lit 3.0 <= wind_speed s' -> 0 < power s') /\
    (wind_speed s' <= lit 12.0 -> power s' < lit 2000000) /\
    (lit 12.1 <= wind_speed s' -> power s' = lit 2000000).
Proof.
  destruct (step_config_fields s g) as (s' & Hrun & _).
  exists s', (advance_by 4 g). split; [exact Hrun|].
  exact (power_curve_of_step s s' g (advance_by 4 g) Hrun).
Qed.

Lemma step_power_curve_witness :
  exists s' g',
    step config initialize_state rng_half = Ok (s', g') /\
    0 < power s' /\ power s' < lit 2000000.
Proof.
  destruct (step_power_curve initialize_state rng_half)
    as (s' & g' & Hrun & _ & Hpos & Hlow & _).
  exists s', g'. split; [exact Hrun|].
  assert (Hw : wind_speed s' = lit 8.0).
  { pose proof Hrun as E. rewrite step_initialize_state in E.
    injection E as <- _. reflexivity. }
  split; [apply Hpos | apply Hlow]; rewrite Hw; discriminate.
Defined.

(** The pitch of a snapshot returned by [step]. *)
Lemma pitch_regimes_of_step (s s' : Snapshot) (g g' : Rng) :
  admissible g ->
  step config s g = Ok (s', g') ->
  (wind_speed s' <= lit 12.0 -> 0 <= pitch s' /\ pitch s' <= lit 0.3) /\
  (lit 12.0 < wind_speed s' ->
   pitch s' <= lit 25.0 /\
   pitch s' <= pitch s + lit 0.3 /\
   (pitch s <= lit 24.7 -> pitch s + lit 0.1 <= pitch s') /\
   (lit 24.9 <= pitch s -> pitch s' = lit 25.0)).
Proof.
  intros Hg Hstep.
  destruct (step_config_fields s g) as (s2 & Hrun & _ & _ & Ep & _).
  rewrite Hstep in Hrun. assert (E : s' = s2) by congruence. subst s2.
  clear Hstep.
  destruct (draw_bounds g 2 (lit 0.0) (lit 0.3) Hg) as [A0 A1];
    [discriminate|].
  destruct (draw_bounds g 2 (lit 0.1) (lit 0.3) Hg) as [B0 B1];
    [discriminate|].
  rewrite Ep. clear Ep Hrun.
  generalize dependent (draw g 2 (lit 0.0) (lit 0.3)).
  generalize dependent (draw g 2 (lit 0.1) (lit 0.3)).
  intros b B0 B1 a A0 A1. split.
  - intros H. case_cmp; [split; qc_lra | exfalso; qc_lra].
  - intros H. case_cmp; [exfalso; qc_lra|].
    destruct (pymin_cases (lit 25.0) (pitch s + b)) as [[H1 ->] | [H1 ->]];
      repeat split; intros; try qc_lra; exfalso; qc_lra.
Qed.

(** X7. With every draw inside its range, the pitch returned by [step] is
    between 0 and 0.3 whenever the new wind speed is at most
    [RATED_WIND = 12], whatever the previous pitch was; above rated wind it
    is the previous pitch raised by between 0.1 and 0.3 and capped at
    [MAX_PITCH = 25]. *)
Theorem step_pitch_regimes (s : Snapshot) (g : Rng) :
  admissible g ->
  exists s' g',
    step config s g = Ok (s', g') /\
    (wind_speed s' <= lit 12.0 -> 0 <= pitch s' /\ pitch s' <= lit 0.3) /\
    (lit 12.0 < wind_speed s' ->
     pitch s' <= lit 25.0 /\
     pitch s' <= pitch s + lit 0.3 /\
     (pitch s <= lit 24.7 -> pitch s + lit 0.1 <= pitch s') /\
     (lit 24.9 <= pitch s -> pitch s' = lit 25.0)).
Proof.
  intros Hg. destruct (step_config_fields s g) as (s' & Hrun & _).
  exists s', (advance_by 4 g). split; [exact Hrun|].
  exact (pitch_regimes_of_step s s' g (advance_by 4 g) Hg Hrun).
Qed.

Lemma step_pitch_regimes_witness :
  exists s' g',
    step config initialize_state rng_half = Ok (s', g') /\
    0 <= pitch s' /\ pitch s' <= lit 0.3.
Proof.
  destruct (step_pitch_regimes initialize_state rng_half rng_half_admissible)
    as (s' & g' & Hrun & Hlow & _).
  exists s', g'. split; [exact Hrun|].
  assert (Hw : wind_speed s' = lit 8.0).
  { pose proof Hrun as E. rewrite step_initialize_state in E.
    injection E as <- _. reflexivity. }
  apply Hlow. rewrite Hw. discriminate.
Defined.

Lemma rpm_law_monotone (w1 w2 : Qc) :
  w1 <= w2 ->
  pymax (lit 3.0)
    (if w1 <? lit 12.0 then pymin (lit 18.0) (lit 1.5 * w1) else lit 18.0)
  <= pymax (lit 3.0)
       (if w2 <? lit 12.0 then pymin (lit 18.0) (lit 1.5 * w2) else lit 18.0).
Proof.
  intros H.
  destruct (fltb_spec w1 (lit 12.0)) as [H1|H1];
    destruct (fltb_spec w2 (lit 12.0)) as [H2|H2];
    repeat match goal with
           | |- context [pymin ?a ?b] =>
               destruct (pymin_cases a b) as [[? ->] | [? ->]]
           end;
    repeat match goal with
           | |- context [pymax ?a ?b] =>
               destruct (pymax_cases a b) as [[? ->] | [? ->]]
           end;
    qc_lra.
Qed.

Lemma power_law_monotone (w1 w2 : Qc) :
  0 <= w1 -> w1 <= w2 ->
  (if w1 <? lit 3.0 then lit 0.0
   else pymin (lit 2000000)
          (lit 0.92 * lit 0.4 * (lit 0.5 * lit 1.225 * lit 5026.56 * w1 ^ 3)))
  <= (if w2 <? lit 3.0 then lit 0.0
      else pymin (lit 2000000)
             (lit 0.92 * lit 0.4 * (lit 0.5 * lit 1.225 * lit 5026.56 * w2 ^ 3))).
Proof.
  intros H0 H. pose proof (cube_le w1 w2 H0 H) as Hc.
  pose proof (Qcpower_pos w1 3%nat H0) as Hc1.
  destruct (fltb_spec w1 (lit 3.0)) as [H1|H1];
    destruct (fltb_spec w2 (lit 3.0)) as [H2|H2];
    generalize dependent (w1 ^ 3); generalize dependent (w2 ^ 3);
    intros c2 c1 Hc Hc1;
    repeat match goal with
           | |- context [pymin ?a ?b] =>
               destruct (pymin_cases a b) as [[? ->] | [? ->]]
           end;
    qc_lra.
Qed.

(** X8. More wind never gives less rotor speed or less power: for two calls
    of [step], if the first returns a wind speed no larger than the second
    then its [rpm] and its [power] are no larger either. *)
Theorem step_monotone_in_wind (s1 s2 : Snapshot) (g1 g2 : Rng) :
  exists s1' g1' s2' g2',
    step config s1 g1 = Ok (s1', g1') /\
    step config s2 g2 = Ok (s2', g2') /\
    (wind_speed s1' <= wind_speed s2' ->
     rpm s1' <= rpm s2' /\ power s1' <= power s2').
Proof.
  destruct (step_config_fields s1 g1) as (s1' & Hrun1 & Ew1 & Er1 & _ & Ep1 & _).
  destruct (step_config_fields s2 g2) as (s2' & Hrun2 & _ & Er2 & _ & Ep2 & _).
  exists s1', (advance_by 4 g1), s2', (advance_by 4 g2).
  split; [exact Hrun1|]. split; [exact Hrun2|].
  intros H. pose proof (step_wind_nonneg s1' _ Ew1) as H0.
  rewrite Er1, Er2, Ep1, Ep2. split.
  - now apply rpm_law_monotone.
  - now apply power_law_monotone.
Qed.

Lemma step_monotone_in_wind_witness :
  exists s1' g1' s2' g2',
    step config initialize_state rng_half = Ok (s1', g1') /\
    step config initialize_state rng_one = Ok (s2', g2') /\
    rpm s1' <= rpm s2' /\ power s1' <= power s2'.
Proof.
  destruct (step_monotone_in_wind initialize_state initialize_state
              rng_half rng_one)
    as (s1' & g1' & s2' & g2' & H1 & H2 & Hmono).
  exists s1', g1', s2', g2'. split; [exact H1|]. split; [exact H2|].
  apply Hmono.
  pose proof H1 as E1. rewrite step_initialize_state in E1.
  injection E1 as <- _.
  pose proof H2 as E2. vm_compute in E2. injection E2 as <- _.
  discriminate.
Defined.

(** ** The gearbox temperature *)

Lemma step_gb_temp_bounds (s : Snapshot) (g : Rng) :
  exists s' g',
    step config s g = Ok (s', g') /\
    (lit 15 <= gb_temp s -> lit 15 <= gb_temp s') /\
    (gb_temp s <= lit 180 -> gb_temp s' <= lit 180).
Proof.
  destruct (step_config_fields s g)
    as (s' & Hrun & Ew & Er & _ & Ep & _ & Eb & _).
  exists s', (advance_by 4 g). split; [exact Hrun|].
  destruct (step_power_range _ _ (step_wind_nonneg s' _ Ew) Ep) as [P0 P1].
  destruct (step_rpm_range _ _ Er) as [R0 R1].
  rewrite Eb. clear - P0 P1 R0 R1. split; intros H; qc_lra.
Qed.

(** X9. The gearbox temperature returned by [step] stays at or above 15
    when the previous one is, and at or below 180 when the previous one is;
    hence after any number of steps from [initialize_state()], whatever the
    draws, it lies between 15 and 180. *)
Theorem gb_temp_bounds :
  (forall s g,
      exists s' g',
        step config s g = Ok (s', g') /\
        (lit 15 <= gb_temp s -> lit 15 <= gb_temp s') /\
        (gb_temp s <= lit 180 -> gb_temp s' <= lit 180)) /\
  (forall n g,
      exists s g',
        session config n g = Ok (s, g') /\
        lit 15 <= gb_temp s /\ gb_temp s <= lit 180).
Proof.
  split; [exact step_gb_temp_bounds|].
  intros n g.
  destruct (run_induction
              (fun _ s => lit 15 <= gb_temp s /\ gb_temp s <= lit 180)
              initialize_state g) with (n := n) as (s & Hrun & H).
  - split; discriminate.
  - intros k s s' gk -> [H0 H1] Hstep.
    destruct (step_gb_temp_bounds s (advance_by (4 * k) g))
      as (s2 & g2 & Hstep2 & L & U).
    rewrite Hstep in Hstep2. injection Hstep2 as <- _. split; auto.
  - exists s, (advance_by (4 * n) g). split; [exact Hrun | exact H].
Qed.

Lemma gb_temp_bounds_witness :
  exists s' g',
    step config initialize_state rng_half = Ok (s', g') /\
    lit 15 <= gb_temp s' /\ gb_temp s' <= lit 180.
Proof.
  destruct gb_temp_bounds as [Hstep _].
  destruct (Hstep initialize_state rng_half) as (s' & g' & Hrun & L & U).
  exists s', g'. split; [exact Hrun|]. split; [apply L | apply U]; discriminate.
Defined.

(** X10. The gearbox alarm can be reached: when every [random.random()]
    returns 1, the snapshot held after 72 steps from [initialize_state()]
    has a gearbox temperature above [GB_TEMP_CRIT] and [evaluate_health]
    reports the gearbox channel as [CRITICAL], although the wind speed is
    still below [CUT_OUT_WIND]. *)
Theorem gearbox_alarm_reachable :
  exists g,
    admissible g /\
    exists s g',
      session config 72 g = Ok (s, g') /\
      GB_TEMP_CRIT config < gb_temp s /\
      wind_speed s < CUT_OUT_WIND config /\
      forall dt, Health.gearbox_temp (evaluate_health config s dt) = CRITICAL.
Proof.
  exists rng_one. split; [exact rng_one_admissible|].
  destruct (run_config_ok 72 initialize_state rng_one) as (s & Hrun).
  exists s, (advance_by (4 * 72) rng_one).
  split; [unfold session; exact Hrun|].
  assert (H : match run config 72 initialize_state rng_one with
              | Ok (s, _) =>
                  (GB_TEMP_CRIT config <? gb_temp s) &&
                  (wind_speed s <? CUT_OUT_WIND config)
              | Raise _ => false
              end = true) by (vm_compute; reflexivity).
  rewrite Hrun in H. apply andb_prop in H. destruct H as [Hb Hw].
  destruct (fltb_spec (GB_TEMP_CRIT config) (gb_temp s)) as [Hgb|]; [|discriminate].
  destruct (fltb_spec (wind_speed s) (CUT_OUT_WIND config)) as [Hws|]; [|discriminate].
  split; [exact Hgb|]. split; [exact Hws|].
  intros dt. rewrite evaluate_health_gearbox_temp. unfold classify.
  destruct (fgtb_spec (gb_temp s) (GB_TEMP_CRIT config)) as [|Hle];
    [reflexivity|].
  exfalso. exact (Qclt_not_le _ _ Hgb Hle).
Qed.

(** ** The first steps of a session *)

Lemma of_nat_nonneg (n : nat) : 0 <= of_nat n.
Proof. apply (of_nat_le 0 n). apply Nat.le_0_l. Qed.

Lemma draw_rng_one (m k : nat) (a b : Qc) :
  draw (advance_by m rng_one) k a b = b.
Proof.
  unfold draw. cbv zeta. rewrite !tape_advance_by. cbn [tape rng_one].
  qc_lra.
Qed.

(** When every [random.random()] returns 1, the wind speed and the
    vibration rise by 0.22 and 0.02 at every step. *)
Lemma session_rng_one (n : nat) :
  exists s g',
    session config n rng_one = Ok (s, g') /\
    wind_speed s = lit 8.0 + lit 0.22 * of_nat n /\
    vibration s = lit 2.5 + lit 0.02 * of_nat n.
Proof.
  destruct (run_induction
              (fun k s =>
                 wind_speed s = lit 8.0 + lit 0.22 * of_nat k /\
                 vibration s = lit 2.5 + lit 0.02 * of_nat k)
              initialize_state rng_one) with (n := n) as (s & Hrun & H).
  - split; apply Qc_decomp; reflexivity.
  - intros k s s' gk -> [Hw Hv] Hstep.
    destruct (step_config_fields s (advance_by (4 * k) rng_one))
      as (s2 & Hs2 & Ew & _ & _ & _ & _ & _ & Ev).
    rewrite Hstep in Hs2. injection Hs2 as <-.
    repeat rewrite draw_rng_one in Ew. repeat rewrite draw_rng_one in Ev.
    rewrite Ew, Ev, Hw, Hv.
    pose proof (of_nat_nonneg k) as H0. pose proof (this_of_nat_S k) as HS.
    clear Hw Hv Ew Ev Hstep.
    generalize dependent (of_nat (S k)). generalize dependent (of_nat k).
    intros a H0 b HS.
    destruct (pymax_cases (lit 0.0) (lit 8.0 + lit 0.22 * a + lit 0.2 + lit 0.02))
      as [[H1 ->] | [H1 ->]];
      destruct (pymax_cases (lit 0.5) (lit 2.5 + lit 0.02 * a + lit 0.02))
        as [[H2 ->] | [H2 ->]];
      split; qc_lra.
  - exists s, (advance_by (4 * n) rng_one). split; [exact Hrun | exact H].
Qed.

(** The snapshot held after [n + 1] steps is the result of [step] on the
    snapshot held after [n]. *)
Lemma session_S (n : nat) (g : Rng) :
  exists s1 s,
    session config n g = Ok (s1, advance_by (4 * n) g) /\
    step config s1 (advance_by (4 * n) g) = Ok (s, advance_by (4 * S n) g) /\
    session config (S n) g = Ok (s, advance_by (4 * S n) g).
Proof.
  destruct (run_config_ok n initialize_state g) as (s1 & H1).
  destruct (run_config_ok (S n) initialize_state g) as (s & H2).
  exists s1, s. unfold session. split; [exact H1|]. split; [|exact H2].
  rewrite run_snoc, H1 in H2. exact H2.
Qed.

(** X11. With every draw inside its range, the vibration channel of
    [evaluate_health] is [OK] on the snapshot held after any [n <= 175]
    steps from [initialize_state()]; the bound is sharp: when every
    [random.random()] returns 1 the channel is [WARN] after 176 steps. *)
Theorem vibration_alarm_not_before_176 :
  (forall n g,
      (n <= 175)%nat -> admissible g ->
      exists s g',
        session config n g = Ok (s, g') /\
        forall dt, Health.vibration (evaluate_health config s dt) = OK) /\
  (exists g,
      admissible g /\
      exists s g',
        session config 176 g = Ok (s, g') /\
        forall dt, Health.vibration (evaluate_health config s dt) = WARN).
Proof.
  split.
  - intros n g Hn Hg.
    destruct (run_drift n g Hg) as (s & Hrun & _ & _ & _ & Hv).
    exists s, (advance_by (4 * n) g). split; [exact Hrun|]. intros dt.
    rewrite evaluate_health_vibration.
    apply (classify_spec (VIB_WARN config) (VIB_CRIT config));
      [discriminate|].
    pose proof (of_nat_le n 175 Hn) as Hle.
    assert (E : of_nat 175 = lit 175) by (apply Qc_decomp; reflexivity).
    rewrite E in Hle. cbn [config VIB_WARN].
    generalize dependent (of_nat n). intros a Hv Hle. qc_lra.
  - exists rng_one. split; [exact rng_one_admissible|].
    destruct (session_rng_one 176) as (s & g' & Hrun & _ & Hv).
    exists s, g'. split; [exact Hrun|]. intros dt.
    rewrite evaluate_health_vibration.
    apply (classify_spec (VIB_WARN config) (VIB_CRIT config));
      [discriminate|].
    rewrite Hv. split; vm_compute; [reflexivity | discriminate].
Qed.

Lemma vibration_alarm_not_before_176_witness :
  exists s g',
    session config 3 rng_half = Ok (s, g') /\
    forall dt, Health.vibration (evaluate_health config s dt) = OK.
Proof.
  destruct vibration_alarm_not_before_176 as [H _].
  apply H; [lia | exact rng_half_admissible].
Defined.

(** X12. With every draw inside its range, the snapshot held after any
    [n] steps from [initialize_state()] with [1 <= n <= 18] is in the
    partial-load regime: wind speed strictly between [CUT_IN_WIND] and
    [RATED_WIND], [rpm = 1.5 * wind_speed], pitch at most 0.3 and power
    strictly between 0 and [RATED_POWER].  The bound is sharp: when every
    [random.random()] returns 1 the wind speed exceeds [RATED_WIND] after
    19 steps. *)
Theorem partial_load_first_18_steps :
  (forall n g,
      (1 <= n)%nat -> (n <= 18)%nat -> admissible g ->
      exists s g',
        session config n g = Ok (s, g') /\
        (CUT_IN_WIND config < wind_speed s /\
         wind_speed s < RATED_WIND config) /\
        rpm s = lit 1.5 * wind_speed s /\
        (0 <= pitch s /\ pitch s <= lit 0.3) /\
        (0 < power s /\ power s < RATED_POWER config)) /\
  (exists g,
      admissible g /\
      exists s g',
        session config 19 g = Ok (s, g') /\
        RATED_WIND config < wind_speed s).
Proof.
  split.
  - intros [|m] g H1 H18 Hg; [lia|].
    destruct (session_S m g) as (s1 & s & Hprev & Hstep & Hrun).
    exists s, (advance_by (4 * S m) g). split; [exact Hrun|].
    destruct (run_drift (S m) g Hg) as (s2 & Hrun2 & _ & (W0 & W1) & _).
    unfold session in Hrun. rewrite Hrun in Hrun2.
    assert (E2 : s = s2) by congruence. subst s2. clear Hrun2.
    pose proof (of_nat_le (S m) 18 H18) as Hle.
    assert (E : of_nat 18 = lit 18) by (apply Qc_decomp; reflexivity).
    rewrite E in Hle.
    assert (Hlo : lit 4 <= wind_speed s /\ wind_speed s <= lit 11.96).
    { clear - W0 W1 Hle. generalize dependent (of_nat (S m)).
      intros a W0 W1 Hle. split; qc_lra. }
    destruct Hlo as [Hlo Hhi]. clear W0 W1 Hle E.
    assert (Hg1 : admissible (advance_by (4 * m) g))
      by now apply admissible_advance_by.
    destruct (rpm_piecewise_of_step s1 s _ _ Hstep) as (_ & Hrpm & _).
    destruct (pitch_regimes_of_step s1 s _ _ Hg1 Hstep) as (Hpitch & _).
    destruct (power_curve_of_step s1 s _ _ Hstep) as (_ & Hpos & Hlow & _).
    cbn [config CUT_IN_WIND RATED_WIND RATED_POWER].
    split; [split; qc_lra|].
    split; [apply Hrpm; qc_lra|].
    split; [apply Hpitch; qc_lra|].
    split; [apply Hpos | apply Hlow]; qc_lra.
  - exists rng_one. split; [exact rng_one_admissible|].
    destruct (session_rng_one 19) as (s & g' & Hrun & Hw & _).
    exists s, g'. split; [exact Hrun|]. rewrite Hw. reflexivity.
Qed.

Lemma partial_load_first_18_steps_witness :
  exists s g',
    session config 3 rng_half = Ok (s, g') /\
    rpm s = lit 1.5 * wind_speed s.
Proof.
  destruct partial_load_first_18_steps as [H _].
  destruct (H 3%nat rng_half) as (s & g' & Hrun & _ & Hrpm & _);
    [lia | lia | exact rng_half_admissible |].
  exists s, g'. split; [exact Hrun | exact Hrpm].
Defined.

(** ** The twin engine on the snapshots of the simulator *)

(** X13. [compute_physics] never raises, whatever the Parameter Set and
    the snapshot: each of its divisions is behind a guard that excludes a
    zero divisor. *)
Theorem compute_physics_never_raises (cfg : Config) (s : Snapshot) :
  exists ph, compute_physics cfg s = Ok ph.
Proof.
  destruct (compute_physics_fields cfg s) as (ph & H & _).
  exists ph. exact H.
Qed.

Lemma fdiv_mult (x y : Qc) : y <> 0 -> x / y * y = x.
Proof. intros H. rewrite Qcmult_comm. now apply Qcmult_div_r. Qed.

Lemma gt_nonzero (y : Qc) : 0 < y -> y <> 0.
Proof. intros H E. subst y. revert H. discriminate. Qed.

Lemma fdiv_lt_iff (x y c : Qc) : 0 < y -> (x / y < c <-> x < c * y).
Proof.
  intros Hy. pose proof (fdiv_mult x y (gt_nonzero y Hy)) as E.
  generalize dependent (x / y). intros q E. split; intros H; qc_nra.
Qed.

Lemma fdiv_le_iff (x y c : Qc) : 0 < y -> (x / y <= c <-> x <= c * y).
Proof.
  intros Hy. pose proof (fdiv_mult x y (gt_nonzero y Hy)) as E.
  generalize dependent (x / y). intros q E. split; intros H; qc_nra.
Qed.

(** [step] followed by [compute_physics], as the dashboard calls them. *)
Lemma step_then_physics (s : Snapshot) (g : Rng) :
  exists s' g' ph,
    step config s g = Ok (s', g') /\
    compute_physics config s' = Ok ph /\
    0 <= wind_speed s' /\
    (lit 3.0 <= rpm s' /\ rpm s' <= lit 18.0) /\
    power s' =
      (if wind_speed s' <? lit 3.0 then lit 0.0
       else pymin (lit 2000000)
              (lit 0.92 * lit 0.4 *
               (lit 0.5 * lit 1.225 * lit 5026.56 * wind_speed s' ^ 3))) /\
    omega ph = lit 2.0 * math_pi * rpm s' / lit 60.0 /\
    p_wind ph =
      (if wind_speed s' >? lit 0.0
       then lit 0.5 * lit 1.225 * lit 5026.56 * wind_speed s' ^ 3
       else lit 0.0) /\
    tsr ph =
      (if wind_speed s' >? lit 0.1
       then omega ph * lit 40.0 / wind_speed s'
       else lit 0.0) /\
    cp ph =
      (if p_wind ph >? lit 1.0
       then pymin (power s' / p_wind ph) (lit 0.59)
       else lit 0.0) /\
    torque ph =
      (if omega ph >? lit 0.1 then power s' / omega ph else lit 0.0).
Proof.
  destruct (step_config_fields s g) as (s' & Hrun & Ew & Er & _ & Ep & _).
  destruct (compute_physics_fields config s') as (ph & Hph & Eo & Epw & Et & Ec & Eq).
  rewrite ROTOR_AREA_value in Epw.
  exists s', (advance_by 4 g), ph.
  split; [exact Hrun|]. split; [exact Hph|].
  split; [exact (step_wind_nonneg s' _ Ew)|].
  split; [exact (step_rpm_range _ _ Er)|].
  repeat split; assumption.
Qed.


(** The available wind power computed from a wind speed of at least 3. *)
Lemma p_wind_above_cut_in (w : Qc) :
  lit 3.0 <= w ->
  lit 83126 < lit 0.5 * lit 1.225 * lit 5026.56 * w ^ 3.
Proof.
  intros H.
  assert (H3 : lit 3.0 ^ 3 <= w ^ 3) by (apply cube_le; [discriminate | exact H]).
  assert (E : lit 3.0 ^ 3 = lit 27) by (apply Qc_decomp; reflexivity).
  rewrite E in H3. generalize dependent (w ^ 3). intros c H3. qc_lra.
Qed.

(** The power coefficient of a snapshot returned by [step], in terms of the
    available wind power: the measured power is the smaller of
    [RATED_POWER] and [EFFICIENCY * 0.4] times the available power. *)
Lemma produced_cp_cases (w pw po c : Qc) :
  lit 83126 < pw ->
  po = pymin (lit 2000000) (lit 0.92 * lit 0.4 * pw) ->
  c = pymin (po / pw) (lit 0.59) ->
  c = po / pw /\ c * pw = po /\ c <= lit 0.368 /\
  (c < lit 0.25 <-> lit 8000000 < pw).
Proof.
  intros Hpw -> ->.
  assert (Hpos : 0 < pw) by qc_lra.
  pose proof (fdiv_mult (pymin (lit 2000000) (lit 0.92 * lit 0.4 * pw)) pw
                (gt_nonzero pw Hpos)) as E.
  assert (Hle : pymin (lit 2000000) (lit 0.92 * lit 0.4 * pw) / pw <= lit 0.368).
  { apply fdiv_le_iff; [exact Hpos|].
    pose proof (pymin_r (lit 2000000) (lit 0.92 * lit 0.4 * pw)) as H.
    generalize dependent (pymin (lit 2000000) (lit 0.92 * lit 0.4 * pw)).
    intros p _ H. qc_lra. }
  assert (Ec : pymin (pymin (lit 2000000) (lit 0.92 * lit 0.4 * pw) / pw)
                 (lit 0.59)
               = pymin (lit 2000000) (lit 0.92 * lit 0.4 * pw) / pw).
  { destruct (pymin_cases
                (pymin (lit 2000000) (lit 0.92 * lit 0.4 * pw) / pw)
                (lit 0.59)) as [[H _] | [_ ->]]; [exfalso; qc_lra | reflexivity]. }
  rewrite Ec. split; [reflexivity|]. split; [exact E|]. split; [exact Hle|].
  rewrite fdiv_lt_iff by exact Hpos.
  destruct (pymin_cases (lit 2000000) (lit 0.92 * lit 0.4 * pw))
    as [[H ->] | [H ->]]; split; intros H'; qc_lra.
Qed.

(** X15. On every snapshot returned by [step], the power coefficient
    computed by [compute_physics] lies between 0 and 0.37, strictly below
    [CP_MAX = 0.59]: the simulator's power is at most [EFFICIENCY * 0.4]
    times the available wind power, so the cap [min(cp, CP_MAX)] never
    binds.  The coefficient is 0 below cut-in wind, and from cut-in wind on
    it is the quotient [power / p_wind] itself. *)
Theorem produced_cp (s : Snapshot) (g : Rng) :
  exists s' g' ph,
    step config s g = Ok (s', g') /\
    compute_physics config s' = Ok ph /\
    (0 <= cp ph /\ cp ph <= lit 0.37 /\ cp ph < CP_MAX config) /\
    (wind_speed s' < lit 3.0 -> cp ph = 0) /\
    (lit 3.0 <= wind_speed s' -> cp ph = power s' / p_wind ph).
Proof.
  destruct (step_then_physics s g)
    as (s' & g' & ph & Hrun & Hph & Hw0 & _ & Ep & _ & Epw & _ & Ec & _).
  exists s', g', ph. split; [exact Hrun|]. split; [exact Hph|].
  destruct (fltb_spec (wind_speed s') (lit 3.0)) as [Hlt | Hge].
  - assert (E0 : cp ph = 0).
    { rewrite Ec, Ep. case_cmp; [|apply lit_0].
      assert (Ez : lit 0.0 / p_wind ph = 0).
      { apply Qc_is_canon. rewrite this_div, this_lit. reflexivity. }
      rewrite Ez. reflexivity. }
    rewrite E0. split; [repeat split; discriminate|]. split; [reflexivity|].
    intros H. exfalso. exact (Qclt_not_le _ _ Hlt H).
  - pose proof (p_wind_above_cut_in _ Hge) as Hpw.
    assert (Epw' : p_wind ph =
                   lit 0.5 * lit 1.225 * lit 5026.56 * wind_speed s' ^ 3).
    { rewrite Epw. case_cmp; [reflexivity | exfalso; qc_lra]. }
    rewrite <- Epw' in Ep, Hpw.
    assert (Hgt : (p_wind ph >? lit 1.0) = true).
    { destruct (fgtb_spec (p_wind ph) (lit 1.0)); [reflexivity | exfalso; qc_lra]. }
    rewrite Hgt in Ec.
    destruct (produced_cp_cases (wind_speed s') (p_wind ph) (power s') (cp ph)
                Hpw Ep Ec) as (E1 & _ & Hle & _).
    split.
    + split; [|cbn [config CP_MAX]; clear - Hle; split; qc_lra].
      rewrite E1. apply fdiv_nonneg; [|qc_lra].
      rewrite Ep.
      destruct (pymin_cases (lit 2000000) (lit 0.92 * lit 0.4 * p_wind ph))
        as [[_ ->] | [_ ->]]; qc_lra.
    + split; [|intros _; exact E1].
      intros H. exfalso. exact (Qclt_not_le _ _ H Hge).
Qed.

(** X16. On every snapshot returned by [step] with a wind speed between 2
    and [RATED_WIND = 12], the tip-speed ratio computed by
    [compute_physics] agrees with [2 * math.pi] to six decimals, whatever
    the wind speed: it lies between 6.283185 and 6.283186.  Below rated
    wind the control law [rpm = 1.5 * wind] holds the tip-speed ratio
    fixed. *)
Theorem produced_tsr_near_two_pi (s : Snapshot) (g : Rng) :
  exists s' g' ph,
    step config s g = Ok (s', g') /\
    compute_physics config s' = Ok ph /\
    (lit 2 <= wind_speed s' -> wind_speed s' <= lit 12.0 ->
     lit 6.283185 <= tsr ph /\ tsr ph <= lit 6.283186).
Proof.
  destruct (step_then_physics s g)
    as (s' & g' & ph & Hrun & Hph & _ & _ & _ & Eo & _ & Et & _).
  exists s', g', ph. split; [exact Hrun|]. split; [exact Hph|].
  intros H2 H12.
  destruct (rpm_piecewise_of_step s s' g g' Hrun) as (_ & Hrpm & _).
  specialize (Hrpm H2 H12).
  rewrite Et, Eo, Hrpm. case_cmp; [|exfalso; qc_lra].
  assert (Hw : wind_speed s' <> 0)
    by (apply (guard_nonzero _ (lit 0.1)); [discriminate | assumption]).
  assert (E : lit 2.0 * math_pi * (lit 1.5 * wind_speed s') / lit 60.0 * lit 40.0
              = lit 2 * math_pi * wind_speed s').
  { unfold math_pi. clear. qc_lra. }
  rewrite E, (Qcdiv_mult_l _ _ Hw). unfold math_pi. clear. split; qc_lra.
Qed.

Lemma produced_tsr_near_two_pi_witness :
  exists s' g' ph,
    step config initialize_state rng_half = Ok (s', g') /\
    compute_physics config s' = Ok ph /\
    lit 6.283185 <= tsr ph /\ tsr ph <= lit 6.283186.
Proof.
  destruct (produced_tsr_near_two_pi initialize_state rng_half)
    as (s' & g' & ph & Hrun & Hph & H).
  exists s', g', ph. split; [exact Hrun|]. split; [exact Hph|].
  assert (Hw : wind_speed s' = lit 8.0).
  { pose proof Hrun as E. rewrite step_initialize_state in E.
    injection E as <- _. reflexivity. }
  apply H; rewrite Hw; discriminate.
Defined.

(** X17. On every snapshot returned by [step], with the physics
    [compute_physics] derives from it, the performance channel of
    [evaluate_health] is [WARN] exactly when the available wind power
    exceeds four times [RATED_POWER]: it is [OK] for every wind speed up to
    13.7 and [WARN] for every wind speed from 13.8 on, where the power is
    at [RATED_POWER]. *)
Theorem produced_performance (s : Snapshot) (g : Rng) :
  exists s' g' ph,
    step config s g = Ok (s', g') /\
    compute_physics config s' = Ok ph /\
    (Health.performance (evaluate_health config s' ph) = WARN <->
     lit 8000000 < p_wind ph) /\
    (wind_speed s' <= lit 13.7 ->
     Health.performance (evaluate_health config s' ph) = OK) /\
    (lit 13.8 <= wind_speed s' ->
     Health.performance (evaluate_health config s' ph) = WARN /\
     power s' = RATED_POWER config).
Proof.
  destruct (step_then_physics s g)
    as (s' & g' & ph & Hrun & Hph & Hw0 & _ & Ep & _ & Epw & _ & Ec & _).
  exists s', g', ph. split; [exact Hrun|]. split; [exact Hph|].
  assert (Hiff : Health.performance (evaluate_health config s' ph) = WARN <->
                 lit 8000000 < p_wind ph).
  { rewrite evaluate_health_performance. cbn [config CUT_IN_WIND].
    destruct (fgtb_spec (wind_speed s') (lit 3.0)) as [Hgt | Hle].
    - assert (Hge : lit 3.0 <= wind_speed s') by qc_lra.
      pose proof (p_wind_above_cut_in _ Hge) as Hpw.
      assert (Epw' : p_wind ph =
                     lit 0.5 * lit 1.225 * lit 5026.56 * wind_speed s' ^ 3).
      { rewrite Epw. case_cmp; [reflexivity | exfalso; qc_lra]. }
      rewrite <- Epw' in Ep, Hpw.
      assert (Ep' : power s' =
                    pymin (lit 2000000) (lit 0.92 * lit 0.4 * p_wind ph)).
      { rewrite Ep. case_cmp; [exfalso; qc_lra | reflexivity]. }
      assert (Hg1 : (p_wind ph >? lit 1.0) = true).
      { destruct (fgtb_spec (p_wind ph) (lit 1.0));
          [reflexivity | exfalso; qc_lra]. }
      rewrite Hg1 in Ec.
      destruct (produced_cp_cases (wind_speed s') (p_wind ph) (power s')
                  (cp ph) Hpw Ep' Ec) as (_ & _ & _ & H).
      rewrite andb_true_r.
      destruct (fltb_spec (cp ph) (lit 0.25)) as [Hc | Hc]; split;
        try reflexivity; try discriminate.
      + intros _. now apply H.
      + intros Hp. apply H in Hp. exfalso. exact (Qclt_not_le _ _ Hp Hc).
    - rewrite andb_false_r. split; [discriminate|]. intros Hp. exfalso.
      assert (H13 : wind_speed s' ^ 3 <= lit 3.0 ^ 3)
        by (apply cube_le; assumption).
      assert (E : lit 3.0 ^ 3 = lit 27) by (apply Qc_decomp; reflexivity).
      rewrite E in H13. rewrite Epw in Hp. revert Hp.
      case_cmp; [|discriminate]. intros Hp. clear - H13 Hp.
      generalize dependent (wind_speed s' ^ 3). intros c H13 Hp. qc_lra. }
  split; [exact Hiff|].
  assert (Hw : 0 <= wind_speed s') by exact Hw0.
  split.
  - intros H. rewrite evaluate_health_performance.
    destruct ((cp ph <? lit 0.25) && (wind_speed s' >? CUT_IN_WIND config)) eqn:B;
      [|reflexivity].
    exfalso.
    assert (HW : Health.performance (evaluate_health config s' ph) = WARN)
      by (rewrite evaluate_health_performance, B; reflexivity).
    apply Hiff in HW.
    assert (H13 : wind_speed s' ^ 3 <= lit 13.7 ^ 3)
      by (apply cube_le; assumption).
    assert (E : lit 13.7 ^ 3 = lit 2571.353) by (apply Qc_decomp; reflexivity).
    rewrite E in H13. rewrite Epw in HW. revert HW.
    case_cmp; [|discriminate]. intros HW. clear - H13 HW.
    generalize dependent (wind_speed s' ^ 3). intros c H13 HW. qc_lra.
  - intros H.
    assert (H13 : lit 13.8 ^ 3 <= wind_speed s' ^ 3)
      by (apply cube_le; [discriminate | exact H]).
    assert (E : lit 13.8 ^ 3 = lit 2628.072) by (apply Qc_decomp; reflexivity).
    rewrite E in H13. split.
    + apply Hiff. rewrite Epw. case_cmp; [|exfalso; qc_lra].
      clear - H13.
      generalize dependent (wind_speed s' ^ 3). intros c H13. qc_lra.
    + rewrite Ep. cbn [config RATED_POWER]. case_cmp; [exfalso; qc_lra|].
      clear - H13.
      generalize dependent (wind_speed s' ^ 3). intros c H13.
      destruct (pymin_cases (lit 2000000)
                  (lit 0.92 * lit 0.4 * (lit 0.5 * lit 1.225 * lit 5026.56 * c)))
        as [[H1 ->] | [_ ->]]; [exfalso; qc_lra | reflexivity].
Qed.

Lemma produced_performance_witness :
  exists s' g' ph,
    step config initialize_state rng_half = Ok (s', g') /\
    compute_physics config s' = Ok ph /\
    Health.performance (evaluate_health config s' ph) = OK.
Proof.
  destruct (produced_performance initialize_state rng_half)
    as (s' & g' & ph & Hrun & Hph & _ & H & _).
  exists s', g', ph. split; [exact Hrun|]. split; [exact Hph|].
  assert (Hw : wind_speed s' = lit 8.0).
  { pose proof Hrun as E. rewrite step_initialize_state in E.
    injection E as <- _. reflexivity. }
  apply H. rewrite Hw. discriminate.
Defined.

Lemma produced_cp_witness :
  exists s' g' ph,
    step config initialize_state rng_half = Ok (s', g') /\
    compute_physics config s' = Ok ph /\
    cp ph = power s' / p_wind ph.
Proof.
  destruct (produced_cp initialize_state rng_half)
    as (s' & g' & ph & Hrun & Hph & _ & _ & H).
  exists s', g', ph. split; [exact Hrun|]. split; [exact Hph|].
  assert (Hw : wind_speed s' = lit 8.0).
  { pose proof Hrun as E. rewrite step_initialize_state in E.
    injection E as <- _. reflexivity. }
  apply H. rewrite Hw. discriminate.
Defined.

(** ** The health classification *)

Lemma classify_monotone (warn crit x y : Qc) :
  x <= y -> (severity (classify warn crit x) <= severity (classify warn crit y))%nat.
Proof.
  intros H. unfold classify.
  destruct (fgtb_spec x crit) as [Hx|Hx];
    destruct (fgtb_spec y crit) as [Hy|Hy];
    try destruct (fgtb_spec x warn) as [Hx'|Hx'];
    try destruct (fgtb_spec y warn) as [Hy'|Hy'];
    cbn [severity]; try lia; exfalso; qc_lra.
Qed.

(** X18. For every Parameter Set, a higher reading never gets a lower
    severity: on each of the generator-temperature, gearbox-temperature
    and vibration channels, if the reading of one snapshot is at most that
    of another then so is its status in the order [OK < WARN < CRITICAL]. *)
Theorem evaluate_health_monotone
    (cfg : Config) (s1 s2 : Snapshot) (dt1 dt2 : Physics) :
  (gen_temp s1 <= gen_temp s2 ->
   (severity (Health.generator_temp (evaluate_health cfg s1 dt1)) <=
    severity (Health.generator_temp (evaluate_health cfg s2 dt2)))%nat) /\
  (gb_temp s1 <= gb_temp s2 ->
   (severity (Health.gearbox_temp (evaluate_health cfg s1 dt1)) <=
    severity (Health.gearbox_temp (evaluate_health cfg s2 dt2)))%nat) /\
  (vibration s1 <= vibration s2 ->
   (severity (Health.vibration (evaluate_health cfg s1 dt1)) <=
    severity (Health.vibration (evaluate_health cfg s2 dt2)))%nat).
Proof.
  rewrite !evaluate_health_generator_temp, !evaluate_health_gearbox_temp,
    !evaluate_health_vibration.
  repeat split; apply classify_monotone.
Qed.

Lemma evaluate_health_monotone_witness :
  (severity (Health.generator_temp
               (evaluate_health config initialize_state zero_physics)) <=
   severity (Health.generator_temp
               (evaluate_health config hot_generator_snapshot zero_physics)))%nat.
Proof.
  destruct (evaluate_health_monotone config initialize_state
              hot_generator_snapshot zero_physics zero_physics) as [H _].
  apply H. discriminate.
Defined.

(** X19. Nothing validates the thresholds: for a Parameter Set whose
    warning threshold is not below its critical threshold, the channel
    never reports [WARN]; it is [CRITICAL] above the critical threshold and
    [OK] otherwise. *)
Theorem evaluate_health_inverted_thresholds
    (cfg : Config) (s : Snapshot) (dt : Physics) :
  (GEN_TEMP_CRIT cfg <= GEN_TEMP_WARN cfg ->
   Health.generator_temp (evaluate_health cfg s dt) <> WARN) /\
  (GB_TEMP_CRIT cfg <= GB_TEMP_WARN cfg ->
   Health.gearbox_temp (evaluate_health cfg s dt) <> WARN) /\
  (VIB_CRIT cfg <= VIB_WARN cfg ->
   Health.vibration (evaluate_health cfg s dt) <> WARN).
Proof.
  rewrite evaluate_health_generator_temp, evaluate_health_gearbox_temp,
    evaluate_health_vibration.
  unfold classify.
  repeat split; intros H;
    match goal with
    | |- context [?x >? ?c] => destruct (fgtb_spec x c) as [Hc|Hc]
    end; try discriminate;
    match goal with
    | |- context [?x >? ?w] => destruct (fgtb_spec x w) as [Hw|Hw]
    end; try discriminate; exfalso; qc_lra.
Qed.

(** [config.py] with the two generator thresholds exchanged. *)
Lemma evaluate_health_inverted_thresholds_witness :
  Health.generator_temp
    (evaluate_health
       {| AIR_DENSITY := lit 1.225; ROTOR_RADIUS := lit 40.0;
          RATED_POWER := lit 2000000; EFFICIENCY := lit 0.92;
          CUT_IN_WIND := lit 3.0; RATED_WIND := lit 12.0;
          CUT_OUT_WIND := lit 25.0; MAX_RPM := lit 18.0; MIN_RPM := lit 3.0;
          MIN_PITCH := lit 0.0; MAX_PITCH := lit 25.0; CP_MAX := lit 0.59;
          CP_NOMINAL := lit 0.45; GEN_TEMP_WARN := lit 95.0;
          GEN_TEMP_CRIT := lit 85.0; GB_TEMP_WARN := lit 90.0;
          GB_TEMP_CRIT := lit 100.0; VIB_WARN := lit 6.0;
          VIB_CRIT := lit 10.0 |}
       initialize_state zero_physics) <> WARN.
Proof.
  apply evaluate_health_inverted_thresholds. discriminate.
Defined.

(** ** The page script of the dashboard *)

(** X20. The history row of a run is the clock reading followed by the
    seven entries of the snapshot and the five of the physics: the thirteen
    keys are pairwise distinct, so merging the two dictionaries overwrites
    nothing, and the columns the trend charts select are present with the
    values displayed. *)
Theorem history_row_columns (now : datetime) (s : Snapshot) (ph : Physics) :
  history_row now s ph =
    ("time"%string, VTime now) :: snapshot_dict s ++ physics_dict ph /\
  map fst (history_row now s ph) = history_columns /\
  NoDup history_columns /\
  dict_get "time" (history_row now s ph) = Some (VTime now) /\
  dict_get "wind_speed" (history_row now s ph) = Some (VFloat (wind_speed s)) /\
  dict_get "rpm" (history_row now s ph) = Some (VFloat (rpm s)) /\
  dict_get "power" (history_row now s ph) = Some (VFloat (power s)) /\
  dict_get "p_wind" (history_row now s ph) = Some (VFloat (p_wind ph)).
Proof.
  split; [reflexivity|]. split; [reflexivity|]. split.
  - unfold history_columns.
    repeat (constructor; [cbn [In]; intuition discriminate|]). constructor.
  - repeat split.
Qed.

Lemma run_add (cfg : Config) (a b : nat) (s : Snapshot) (g : Rng) :
  run cfg (a + b) s g =
  match run cfg a s g with
  | Ok (s1, g1) => run cfg b s1 g1
  | Raise e => Raise e
  end.
Proof.
  revert s g. induction a as [|a IH]; intros s g; [reflexivity|].
  cbn [Nat.add run bind M_monad].
  destruct (step cfg s g) as [[s1 g1]|e]; [apply IH | reflexivity].
Qed.

(** The optional step of the page script, for the button and for the live
    loop, as zero or one step of a session. *)
Lemma optional_step (b : bool) (s : Snapshot) (g : Rng) :
  (if b then step config s else ret s) g
  = run config (if b then 1 else 0) s g.
Proof.
  destruct b; [|reflexivity].
  cbn [run bind ret M_monad].
  destruct (step config s g) as [[s1 g1]|e]; reflexivity.
Qed.

(** One run of the page script with the constants of [config.py]. *)
Lemma script_config (w : Widgets) (now : datetime) (ss : SessionState) (g : Rng) :
  let s0 := match state ss with Some s => s | None => initialize_state end in
  let h0 := match history ss with Some h => h | None => [] end in
  let g1 := advance_by (4 * (if step_once w then 1 else 0)) g in
  let g2 := advance_by (4 * steps_of w) g in
  exists s1 ph s2 page,
    run config (if step_once w then 1 else 0) s0 g = Ok (s1, g1) /\
    compute_physics config s1 = Ok ph /\
    run config (if run_live w then 1 else 0) s1 g1 = Ok (s2, g2) /\
    run config (steps_of w) s0 g = Ok (s2, g2) /\
    script config w now ss g =
      Ok ({| state := Some s2;
             history := Some (h0 ++ [history_row now s1 ph]) |}, page, g2) /\
    current_scada page = s1 /\
    current_physics page = ph /\
    current_health page = evaluate_health config s1 ph /\
    charts page = Nat.ltb 2 (List.length h0 + 1).
Proof.
  intros s0 h0 g1 g2.
  destruct (run_config_ok (if step_once w then 1 else 0) s0 g) as (s1 & H1).
  fold g1 in H1.
  destruct (compute_physics_fields config s1) as (ph & Hph & _).
  destruct (run_config_ok (if run_live w then 1 else 0) s1 g1) as (s2 & H2).
  assert (Eg : advance_by (4 * (if run_live w then 1 else 0)) g1 = g2).
  { unfold g1, g2, steps_of. rewrite advance_by_add. f_equal. lia. }
  rewrite Eg in H2.
  eexists s1, ph, s2, _. split; [exact H1|]. split; [exact Hph|].
  split; [exact H2|]. split.
  { unfold steps_of. rewrite run_add, H1. exact H2. }
  split.
  { unfold script. fold s0 h0. cbv zeta.
    cbn [bind M_monad]. rewrite optional_step, H1.
    unfold lift. rewrite Hph. rewrite optional_step, H2.
    cbn [ret]. reflexivity. }
  cbn [current_scada current_physics current_health charts].
  repeat split. rewrite length_app. reflexivity.
Qed.

(** X21. With the constants of [config.py], one run of the page script
    never raises; it displays the physics and health of the snapshot it
    displays, appends exactly one row to the history, holding that snapshot
    and physics, and leaves both session keys set.  The snapshot kept for
    the next run is the displayed one unless the live loop is on, and the
    displayed one is the one found unless the button was pressed. *)
Theorem script_run (w : Widgets) (now : datetime) (ss : SessionState) (g : Rng) :
  let s0 := match state ss with Some s => s | None => initialize_state end in
  let h0 := match history ss with Some h => h | None => [] end in
  exists ss' page s',
    script config w now ss g = Ok (ss', page, advance_by (4 * steps_of w) g) /\
    compute_physics config (current_scada page) = Ok (current_physics page) /\
    current_health page =
      evaluate_health config (current_scada page) (current_physics page) /\
    history ss' =
      Some (h0 ++ [history_row now (current_scada page) (current_physics page)]) /\
    state ss' = Some s' /\
    (run_live w = false -> s' = current_scada page) /\
    (step_once w = false -> current_scada page = s0).
Proof.
  intros s0 h0.
  destruct (script_config w now ss g)
    as (s1 & ph & s2 & page & H1 & Hph & H2 & _ & Hs & E1 & E2 & E3 & _).
  fold s0 in H1. fold s0 h0 in Hs.
  exists {| state := Some s2; history := Some (h0 ++ [history_row now s1 ph]) |},
    page, s2.
  rewrite E1, E2, E3. split; [exact Hs|]. split; [exact Hph|].
  split; [reflexivity|]. split; [reflexivity|]. split; [reflexivity|]. split.
  - intros E. rewrite E in H2. cbn [run ret M_monad] in H2. congruence.
  - intros E. rewrite E in H1. cbn [run ret M_monad] in H1. congruence.
Qed.

Lemma script_run_witness :
  exists ss' page s',
    script config paused 0%Z fresh_session rng_half = Ok (ss', page, rng_half) /\
    state ss' = Some s' /\
    s' = current_scada page /\
    current_scada page = initialize_state.
Proof.
  destruct (script_run paused 0%Z fresh_session rng_half)
    as (ss' & page & s' & Hs & _ & _ & _ & Hst & Hlive & Hbtn).
  exists ss', page, s'. split; [exact Hs|]. split; [exact Hst|].
  split; [apply Hlive | apply Hbtn]; reflexivity.
Defined.

(** Successive runs from any session state, against the steps of the
    simulator from the snapshot that state holds. *)
Lemma reruns_from (inputs : list (Widgets * datetime)) :
  forall (ss : SessionState) (g : Rng),
    let s0 := match state ss with Some s => s | None => initialize_state end in
    let h0 := match history ss with Some h => h | None => [] end in
    let total := steps_before inputs (List.length inputs) in
    exists ss' pages s_end rows,
      reruns config inputs ss g = Ok (ss', pages, advance_by (4 * total) g) /\
      run config total s0 g = Ok (s_end, advance_by (4 * total) g) /\
      match inputs with
      | [] => ss' = ss
      | _ :: _ => state ss' = Some s_end /\ history ss' = Some (h0 ++ rows)
      end /\
      List.length rows = List.length inputs /\
      List.length pages = List.length inputs /\
      forall k w now p,
        nth_error inputs k = Some (w, now) ->
        nth_error pages k = Some p ->
        charts p = Nat.ltb 2 (List.length h0 + k + 1) /\
        exists gk,
          run config (steps_before inputs k + (if step_once w then 1 else 0))
            s0 g = Ok (current_scada p, gk).
Proof.
  induction inputs as [|[w now] rest IH]; intros ss g s0 h0 total.
  - exists ss, [], s0, [].
    do 5 (split; [reflexivity|]).
    intros [|k] w' now' p H; discriminate.
  - destruct (script_config w now ss g)
      as (s1 & ph & s2 & page & H1 & Hph & H2 & H12 & Hs & E1 & E2 & E3 & E4).
    fold s0 in H1, H12. fold s0 h0 in Hs. fold h0 in E4.
    set (ss1 := {| state := Some s2;
                   history := Some (h0 ++ [history_row now s1 ph]) |}) in *.
    destruct (IH ss1 (advance_by (4 * steps_of w) g))
      as (ss' & pages & s_end & rows & Hr & Hrun & Hfin & Lr & Lp & Hk).
    cbn [state history ss1] in Hrun, Hfin, Hk.
    set (tr := steps_before rest (List.length rest)) in *.
    assert (Et : total = (steps_of w + tr)%nat) by reflexivity.
    assert (Eg : advance_by (4 * tr) (advance_by (4 * steps_of w) g)
                 = advance_by (4 * total) g).
    { rewrite advance_by_add, Et. f_equal. lia. }
    rewrite Eg in Hr, Hrun.
    exists ss', (page :: pages), s_end, (history_row now s1 ph :: rows).
    split.
    { cbn [reruns bind ret M_monad]. rewrite Hs. cbn [fst snd].
      rewrite Hr. reflexivity. }
    split.
    { rewrite Et, run_add, H12. exact Hrun. }
    split.
    { destruct rest as [|i rest'].
      - subst ss'. cbn [state history ss1].
        unfold tr in Hrun.
        cbn [steps_before List.length run ret M_monad] in Hrun.
        assert (Es : s2 = s_end) by congruence. subst s_end.
        destruct rows; [|discriminate Lr].
        split; reflexivity.
      - destruct Hfin as [Hst Hh]. split; [exact Hst|].
        rewrite Hh, <- app_assoc. reflexivity. }
    split; [cbn [List.length]; now rewrite Lr|].
    split; [cbn [List.length]; now rewrite Lp|].
    intros [|k] w' now' p Hi Hp.
    + cbn [nth_error] in Hi, Hp. injection Hi as <- <-. injection Hp as <-.
      split.
      * rewrite E4. f_equal. lia.
      * exists (advance_by (4 * (if step_once w then 1 else 0)) g).
        cbn [steps_before Nat.add]. rewrite E1. exact H1.
    + cbn [nth_error] in Hi, Hp.
      destruct (Hk k w' now' p Hi Hp) as (Hc & gk & Hg).
      split.
      * rewrite Hc, length_app. cbn [List.length]. f_equal. lia.
      * exists gk. cbn [steps_before].
        rewrite <- Nat.add_assoc, run_add, H12. exact Hg.
Qed.

(** X22. Successive runs of the page script on a freshly opened page, with
    the constants of [config.py], never raise and follow one session of the
    simulator: run number [k] displays the snapshot held after as many
    steps as the earlier runs performed, plus one if its button is pressed;
    the snapshot kept at the end is the one after all the steps; the
    history has one row per run, and a run draws the trend charts exactly
    when it is the third or a later one, whether or not the simulation
    moved. *)
Theorem reruns_follow_session (inputs : list (Widgets * datetime)) (g : Rng) :
  let total := steps_before inputs (List.length inputs) in
  exists ss pages s_end,
    reruns config inputs fresh_session g
      = Ok (ss, pages, advance_by (4 * total) g) /\
    session config total g = Ok (s_end, advance_by (4 * total) g) /\
    (inputs <> [] ->
     state ss = Some s_end /\
     exists h, history ss = Some h /\ List.length h = List.length inputs) /\
    List.length pages = List.length inputs /\
    forall k w now p,
      nth_error inputs k = Some (w, now) ->
      nth_error pages k = Some p ->
      charts p = Nat.ltb 2 (k + 1) /\
      exists gk,
        session config
          (steps_before inputs k + (if step_once w then 1 else 0)) g
        = Ok (current_scada p, gk).
Proof.
  intros total.
  destruct (reruns_from inputs fresh_session g)
    as (ss & pages & s_end & rows & Hr & Hrun & Hfin & Lr & Lp & Hk).
  cbn [fresh_session state history] in Hrun, Hfin, Hk.
  exists ss, pages, s_end. split; [exact Hr|]. split; [exact Hrun|].
  split.
  { intros Hne. destruct inputs as [|i rest]; [contradiction|].
    destruct Hfin as [Hst Hh]. split; [exact Hst|].
    exists rows. split; [exact Hh | exact Lr]. }
  split; [exact Lp|]. exact Hk.
Qed.

Lemma reruns_follow_session_witness :
  exists ss pages s_end,
    reruns config [(live_only, 0%Z); (live_and_button, 1%Z); (paused, 2%Z)]
      fresh_session rng_half
      = Ok (ss, pages, advance_by 12 rng_half) /\
    session config 3 rng_half = Ok (s_end, advance_by 12 rng_half) /\
    state ss = Some s_end.
Proof.
  destruct (reruns_follow_session
              [(live_only, 0%Z); (live_and_button, 1%Z); (paused, 2%Z)]
              rng_half)
    as (ss & pages & s_end & Hr & Hrun & Hfin & _).
  exists ss, pages, s_end. split; [exact Hr|]. split; [exact Hrun|].
  apply Hfin. discriminate.
Defined.

Lemma steps_before_S (inputs : list (Widgets * datetime)) :
  forall k w now,
    nth_error inputs k = Some (w, now) ->
    steps_before inputs (S k) = (steps_before inputs k + steps_of w)%nat.
Proof.
  induction inputs as [|[w0 now0] rest IH]; intros [|k] w now H;
    try discriminate.
  - cbn [nth_error] in H. injection H as -> _.
    destruct rest as [|[? ?] ?]; cbn [steps_before]; lia.
  - cbn [nth_error] in H.
    change (steps_before ((w0, now0) :: rest) (S (S k)))
      with (steps_of w0 + steps_before rest (S k))%nat.
    rewrite (IH k w now H). cbn [steps_before]. lia.
Qed.

(** X23. Between two consecutive runs of the page script the displayed
    snapshot advances by as many simulator steps as the live loop of the
    first run and the button of the second perform: none when the first is
    paused and the button is not pressed (the same snapshot is displayed and
    recorded again), two when the first is live and the button is pressed
    (the snapshot in between is neither displayed nor recorded). *)
Theorem consecutive_pages (inputs : list (Widgets * datetime)) (g : Rng) :
  exists ss pages g',
    reruns config inputs fresh_session g = Ok (ss, pages, g') /\
    forall k w1 now1 w2 now2 p1 p2,
      nth_error inputs k = Some (w1, now1) ->
      nth_error inputs (S k) = Some (w2, now2) ->
      nth_error pages k = Some p1 ->
      nth_error pages (S k) = Some p2 ->
      exists i gi gj,
        session config i g = Ok (current_scada p1, gi) /\
        session config
          (i + (if run_live w1 then 1 else 0)
             + (if step_once w2 then 1 else 0)) g
        = Ok (current_scada p2, gj).
Proof.
  destruct (reruns_from inputs fresh_session g)
    as (ss & pages & s_end & rows & Hr & _ & _ & _ & _ & Hk).
  cbn [fresh_session state history] in Hk.
  exists ss, pages, (advance_by (4 * steps_before inputs (List.length inputs)) g).
  split; [exact Hr|].
  intros k w1 now1 w2 now2 p1 p2 I1 I2 P1 P2.
  destruct (Hk k w1 now1 p1 I1 P1) as (_ & gi & H1).
  destruct (Hk (S k) w2 now2 p2 I2 P2) as (_ & gj & H2).
  exists (steps_before inputs k + (if step_once w1 then 1 else 0))%nat, gi, gj.
  split; [exact H1|].
  rewrite (steps_before_S inputs k w1 now1 I1) in H2. unfold steps_of in H2.
  unfold session. rewrite <- H2. f_equal. lia.
Qed.

Lemma consecutive_pages_witness :
  exists p1 p2 i gi gj,
    session config i rng_half = Ok (current_scada p1, gi) /\
    session config (i + 1 + 1) rng_half = Ok (current_scada p2, gj).
Proof.
  destruct (consecutive_pages [(live_only, 0%Z); (live_and_button, 1%Z)] rng_half)
    as (ss & pages & g' & Hr & H).
  destruct (reruns_from [(live_only, 0%Z); (live_and_button, 1%Z)]
              fresh_session rng_half)
    as (ss2 & pages2 & _ & _ & Hr2 & _ & _ & _ & Lp & _).
  rewrite Hr in Hr2.
  assert (Ep : pages = pages2) by congruence. subst pages2.
  destruct pages as [|p1 [|p2 [|p3 rest]]]; try discriminate Lp.
  destruct (H 0%nat live_only 0%Z live_and_button 1%Z p1 p2
              eq_refl eq_refl eq_refl eq_refl) as (i & gi & gj & H1 & H2).
  exists p1, p2, i, gi, gj. split; [exact H1 | exact H2].
Defined.

(** X24. [health_card] gives each status that [evaluate_health] can report
    a colour of its own, green for [OK], amber for [WARN] and red for
    [CRITICAL]; the grey fallback is used only for other strings. *)
Theorem health_card_colors :
  health_card_color (status_str OK) = "#16a34a"%string /\
  health_card_color (status_str WARN) = "#f59e0b"%string /\
  health_card_color (status_str CRITICAL) = "#dc2626"%string /\
  (forall a b,
      health_card_color (status_str a) = health_card_color (status_str b) ->
      a = b) /\
  (forall st, health_card_color (status_str st) <> "#6b7280"%string) /\
  (forall str,
      (forall st, str <> status_str st) ->
      health_card_color str = "#6b7280"%string).
Proof.
  repeat split.
  - intros [] []; cbn; intros H; try reflexivity; discriminate H.
  - intros []; discriminate.
  - intros str H. unfold health_card_color, color_map. cbn [get].
    destruct (String.eqb_spec str "OK") as [E|_];
      [exfalso; exact (H OK E)|].
    destruct (String.eqb_spec str "WARN") as [E|_];
      [exfalso; exact (H WARN E)|].
    destruct (String.eqb_spec str "CRITICAL") as [E|_];
      [exfalso; exact (H CRITICAL E)|].
    reflexivity.
Qed.
